(** * xskew.tools: the command runner and its wrappers

    A shallow embedding of [xskew/tools.py].  The module is effectful
    Python: it spawns child processes, writes to the [logging] subsystem
    and removes directories.  The embedding threads an explicit [World]
    (filesystem, wall clock, log records, launch history) through a small
    state-and-exception monad; the operating system (search-path lookup,
    the behaviour of the external tools and the encoding of the locale)
    is a parameter. *)

From Stdlib Require Import ZArith String Ascii List Lia.
From Stdlib Require Import DecimalString DecimalZ.
From stdpp Require Import base option gmap strings fin_maps.
Import ListNotations.

Local Open Scope string_scope.
Local Open Scope Z_scope.

(** ** Python values used by the module *)

(** [str(n)] for a Python [int]: decimal digits, a leading minus sign for
    negative numbers. *)
Definition str_int (n : Z) : string := NilZero.string_of_int (Z.to_int n).

(** [" ".join(cmd)]. *)
Definition join (sep : string) (tokens : list string) : string :=
  String.concat sep tokens.

(** An argument that a wrapper interpolates with an f-string
    ([f'{memory}M'], [f'{nthreads}']): callers pass either text or a
    number. *)
Inductive pyarg :=
  | PyStr (s : string)
  | PyInt (n : Z).

(** A string literal or a [str] variable where a Python value is
    expected. *)
Coercion PyStr : string >-> pyarg.

(** A list display of Python values, as in [cmd = ['samtools', 'sort',
    infile]]. *)
Notation "'py[' x ; .. ; y ]" :=
  (cons (x : pyarg) .. (cons (y : pyarg) nil) ..)
  (at level 0, x at level 99, y at level 99).

(** [f'{a}']: [format(a, '')], which is [str(a)] for both kinds. *)
Definition fmt (a : pyarg) : string :=
  match a with
  | PyStr s => s
  | PyInt n => str_int n
  end.

(** The position of the first item of a list that is not a [str]. *)
Fixpoint non_str_index (items : list pyarg) : option Z :=
  match items with
  | [] => None
  | PyStr _ :: rest => Z.succ <$> non_str_index rest
  | PyInt _ :: _ => Some 0
  end.

(** The [str] items of a list. *)
Fixpoint texts (items : list pyarg) : list string :=
  match items with
  | [] => []
  | PyStr s :: rest => s :: texts rest
  | PyInt _ :: rest => texts rest
  end.

(** Carriage return and line feed. *)
Definition CR : ascii := ascii_of_nat 13.
Definition LF : ascii := ascii_of_nat 10.

(** The newline translation of a pipe read in text mode
    ([.replace("\r\n", "\n").replace("\r", "\n")]): CR LF and a lone CR
    both become LF. *)
Fixpoint translate_newlines (text : string) : string :=
  match text with
  | EmptyString => EmptyString
  | String c rest =>
      if Ascii.eqb c CR then
        match rest with
        | String c' rest' =>
            if Ascii.eqb c' LF then String LF (translate_newlines rest')
            else String LF (translate_newlines rest)
        | EmptyString => String LF EmptyString
        end
      else String c (translate_newlines rest)
  end.

(** The text holds a carriage return. *)
Fixpoint has_CR (text : string) : bool :=
  match text with
  | EmptyString => false
  | String c rest => Ascii.eqb c CR || has_CR rest
  end.

(** ** Exceptions *)

(** The exception classes that can occur while this module runs.
    [NonZeroReturnException] is the class the module declares itself
    (tools.py:7); the others are built-in.  Built-in classes carry the
    file name or the identifier they report. *)
Inductive exn :=
  | NonZeroReturnException
  | FileNotFoundError (filename : string)
  | PermissionError (filename : string)
  | NotADirectoryError (filename : string)
  | OSError (msg : string)
  | IndexError
  | NameError (name : string)
  | TypeError (msg : string)
  | UnicodeDecodeError.

(** [isinstance(e, NonZeroReturnException)]: the class has no subclass, and
    it derives from [Exception] directly, so only its own instances match
    an [except NonZeroReturnException] clause. *)
Definition is_NonZeroReturnException (e : exn) : bool :=
  match e with
  | NonZeroReturnException => true
  | _ => false
  end.

(** [isinstance(e, OSError)]: the errors of the operating system, among
    them the failures to launch a process. *)
Definition is_OSError (e : exn) : bool :=
  match e with
  | FileNotFoundError _ | PermissionError _ | NotADirectoryError _
  | OSError _ => true
  | _ => false
  end.

(** ** Logging *)

Inductive level := DEBUG | INFO | WARNING | ERROR | CRITICAL.

Definition level_eqb (a b : level) : bool :=
  match a, b with
  | DEBUG, DEBUG | INFO, INFO | WARNING, WARNING
  | ERROR, ERROR | CRITICAL, CRITICAL => true
  | _, _ => false
  end.

(** A record handed to the root logger: severity and formatted message. *)
Record log_record := LogRecord { lr_level : level; lr_msg : string }.

(** ** The filesystem *)

Inductive node := Dir | File | Symlink.

(** Paths are compared as text; an entry whose path extends [p ++ "/"] lies
    beneath [p]. *)
Definition beneath (p k : string) : bool :=
  String.eqb k p || String.prefix (p ++ "/") k.

Abbreviation FS := (gmap string node).

(** The tree rooted at [p] is gone: [p] and everything beneath it. *)
Definition remove_tree (p : string) (fs : FS) : FS :=
  filter (fun kv => beneath p kv.1 = false) fs.

(** ** The world *)

Record World := mkWorld {
  fs : FS;                           (* directory entries by path *)
  clock : Z;                         (* wall clock, in microseconds *)
  logs : list log_record;            (* records sent to the root logger, oldest first *)
  launches : list (list string)      (* argument lists given to subprocess.run, oldest first *)
}.

Definition set_fs (f : FS) (w : World) : World :=
  mkWorld f (clock w) (logs w) (launches w).
Definition set_clock (c : Z) (w : World) : World :=
  mkWorld (fs w) c (logs w) (launches w).
Definition add_log (r : log_record) (w : World) : World :=
  mkWorld (fs w) (clock w) (logs w ++ [r]) (launches w).
Definition add_launch (args : list string) (w : World) : World :=
  mkWorld (fs w) (clock w) (logs w) (launches w ++ [args]).

(** ** A monad for Python statements

    A statement sequence either completes with a value or is left by an
    exception; the world changes made before the exception stay. *)

Inductive outcome (A : Type) :=
  | Return (a : A)
  | Raise (e : exn).
Arguments Return {A} a.
Arguments Raise {A} e.

Definition Py (A : Type) : Type := World -> outcome A * World.

#[global] Instance Py_ret : MRet Py := fun A a w => (Return a, w).

#[global] Instance Py_bind : MBind Py := fun A B k m w =>
  match m w with
  | (Return a, w') => k a w'
  | (Raise e, w') => (Raise e, w')
  end.

Definition raise {A} (e : exn) : Py A := fun w => (Raise e, w).

(** [try: body except NonZeroReturnException as nzre: handler].  Only an
    exception of the named class enters the handler; any other one leaves
    the statement. *)
Definition try_except (body : Py unit) (handler : exn -> Py unit) : Py unit :=
  fun w =>
    match body w with
    | (Return tt, w') => (Return tt, w')
    | (Raise e, w') =>
        if is_NonZeroReturnException e then handler e w' else (Raise e, w')
    end.

(** [try: ... finally: cleanup].  The cleanup runs however the protected
    part ends.  An exception of the cleanup replaces a pending one; when
    the cleanup completes, a pending exception is raised again. *)
Definition try_finally (protected : Py unit) (cleanup : Py unit) : Py unit :=
  fun w =>
    match protected w with
    | (r, w') =>
        match cleanup w' with
        | (Return tt, w'') => (r, w'')
        | (Raise e, w'') => (Raise e, w'')
        end
    end.

(** *** Primitive effects *)

Definition get_clock : Py Z := fun w => (Return (clock w), w).

(** [logging.debug], [logging.info], [logging.warn], [logging.error]: one
    record to the root logger.  [logging.warn] is the old name of
    [logging.warning]. *)
Definition log (l : level) (msg : string) : Py unit :=
  fun w => (Return tt, add_log (LogRecord l msg) w).

Definition logging_debug := log DEBUG.
Definition logging_info := log INFO.
Definition logging_warn := log WARNING.
Definition logging_error := log ERROR.

(** [shutil.rmtree(path)] with the default [ignore_errors=False]: a path
    that does not exist, is a symbolic link or is not a directory raises;
    a directory is removed with all it holds. *)
Definition shutil_rmtree (path : string) : Py unit :=
  fun w =>
    match fs w !! path with
    | None => (Raise (FileNotFoundError path), w)
    | Some Symlink => (Raise (OSError "Cannot call rmtree on a symbolic link"), w)
    | Some File => (Raise (NotADirectoryError path), w)
    | Some Dir => (Return tt, set_fs (remove_tree path (fs w)) w)
    end.

(** ** Child processes *)

Inductive stream := Stdout | Stderr.

(** What a child did: the bytes it wrote, chunk by chunk in the order of
    the writes, its exit status, the filesystem it left and the wall time
    it took. *)
Record child_result := ChildResult {
  cr_writes : list (stream * string);
  cr_returncode : Z;
  cr_fs : FS;
  cr_elapsed : Z
}.

(** An external tool: from its argument list, the filesystem and the wall
    clock at launch to what it does. *)
Definition program : Type := list string -> FS -> Z -> child_result.

(** Looking the first token up on the search path. *)
Inductive resolution :=
  | NotFound
  | NotExecutable
  | Executable (p : program).

(** The values of the [stdout=] and [stderr=] arguments of
    [subprocess.run]; [Inherit] is the default [None]. *)
Inductive redirect := Inherit | PIPE | STDOUT | DEVNULL.

Inductive sink := ToParent | ToStdoutPipe | ToStderrPipe | Dropped.

Definition sink_eqb (a b : sink) : bool :=
  match a, b with
  | ToParent, ToParent | ToStdoutPipe, ToStdoutPipe
  | ToStderrPipe, ToStderrPipe | Dropped, Dropped => true
  | _, _ => false
  end.

Definition stdout_sink (out : redirect) : sink :=
  match out with
  | PIPE => ToStdoutPipe
  | DEVNULL => Dropped
  | Inherit | STDOUT => ToParent
  end.

(** [stderr=subprocess.STDOUT] sends the error stream wherever the output
    stream goes. *)
Definition route (out err : redirect) (s : stream) : sink :=
  match s with
  | Stdout => stdout_sink out
  | Stderr =>
      match err with
      | PIPE => ToStderrPipe
      | STDOUT => stdout_sink out
      | DEVNULL => Dropped
      | Inherit => ToParent
      end
  end.

(** The bytes read from one pipe: the chunks routed to it, in order. *)
Fixpoint collect (out err : redirect) (k : sink)
    (writes : list (stream * string)) : string :=
  match writes with
  | [] => ""
  | (s, chunk) :: rest =>
      if sink_eqb (route out err s) k
      then chunk +:+ collect out err k rest
      else collect out err k rest
  end.

(** Everything the child printed, on either stream, in the order of the
    writes. *)
Fixpoint printed (writes : list (stream * string)) : string :=
  match writes with
  | [] => ""
  | (_, chunk) :: rest => chunk +:+ printed rest
  end.

(** [subprocess.CompletedProcess]; a stream that was not captured is
    [None]. *)
Record CompletedProcess := mkCompletedProcess {
  args : list string;
  returncode : Z;
  stdout : option string;
  stderr : option string
}.

(** [timedelta.seconds]: the seconds field of a normalised [timedelta]
    (days, seconds, microseconds), between 0 and 86399. *)
Definition timedelta_seconds (microseconds : Z) : Z :=
  (microseconds mod 86400000000) / 1000000.

(** [f'{outprefix}_STARgenome'] and [f'{outprefix}_STARpass1']: the
    working directories of the aligner that [star_nowasp] removes. *)
Definition STARgenome (outprefix : string) : string := outprefix +:+ "_STARgenome".
Definition STARpass1 (outprefix : string) : string := outprefix +:+ "_STARpass1".

Section Tools.

(** The operating system: how a program name resolves on the search
    path, given the filesystem. *)
Variable which : string -> FS -> resolution.

(** The encoding of the locale, as a strict decoder from bytes to text:
    [None] for bytes that are not valid in it. *)
Variable decode : string -> option string.

(** Starting a child on an argument vector: the first token names the
    program.  An empty vector has no program name; a name that does not
    resolve to an executable fails the launch. *)
Definition spawn (argv : list string) (f : FS) (now : Z)
    : outcome child_result :=
  match argv with
  | [] => Raise IndexError
  | prog :: _ =>
      match which prog f with
      | NotFound => Raise (FileNotFoundError prog)
      | NotExecutable => Raise (PermissionError prog)
      | Executable p => Return (p argv f now)
      end
  end.

(** Reading a pipe in text mode ([text=True]) once the child has closed
    it: the bytes are decoded strictly, which raises [UnicodeDecodeError]
    on bytes that are not valid in the locale's encoding, and the
    newlines of the text are translated.  A stream that is not captured
    reads as [None]. *)
Definition read_pipe (target : redirect) (bytes : string)
    : outcome (option string) :=
  match target with
  | PIPE =>
      match decode bytes with
      | Some text => Return (Some (translate_newlines text))
      | None => Raise UnicodeDecodeError
      end
  | _ => Return None
  end.

(** [subprocess.run(args, text=True, stdout=out, stderr=err)], without
    [shell=True]: the token list is the child's argument vector.  The
    call blocks until the child has exited, then reads what it wrote. *)
Definition subprocess_run (args : list string) (out err : redirect)
    : Py CompletedProcess :=
  fun w =>
    let w := add_launch args w in
    match spawn args (fs w) (clock w) with
    | Raise e => (Raise e, w)
    | Return r =>
        let w' := set_clock (clock w + cr_elapsed r) (set_fs (cr_fs r) w) in
        match read_pipe out (collect out err ToStdoutPipe (cr_writes r)) with
        | Raise e => (Raise e, w')
        | Return captured_out =>
            match read_pipe err (collect out err ToStderrPipe (cr_writes r)) with
            | Raise e => (Raise e, w')
            | Return captured_err =>
                (Return {|
                   args := args;
                   returncode := cr_returncode r;
                   stdout := captured_out;
                   stderr := captured_err |},
                 w')
            end
        end
    end.

(** tools.py:27 *)
Definition run_command (cmd : list string)
    : Py (option (option string * option string * Z)) :=
  let cmdstr := join " " cmd in
  logging_info ("running command: " +:+ cmdstr +:+ " ");;
  start ← get_clock;
  cp ← subprocess_run cmd PIPE STDOUT;
  end_ ← get_clock;
  let elapsed := end_ - start in
  logging_debug ("ran cmd='" +:+ cmdstr +:+ "' return="
                 +:+ str_int (returncode cp) +:+ " "
                 +:+ str_int (timedelta_seconds elapsed) +:+ " seconds.");;
  match stderr cp with
  | Some text => logging_debug ("got stderr: " +:+ text)
  | None => mret tt
  end;;
  match stdout cp with
  | Some text => logging_debug ("got stdout: " +:+ text)
  | None => mret tt
  end;;
  if String.eqb (str_int (returncode cp)) "0" then
    logging_info ("successfully ran " +:+ cmdstr);;
    mret (Some (stderr cp, stdout cp, returncode cp))
  else
    logging_warn ("non-zero return code for cmd " +:+ cmdstr);;
    mret None.

(** [run_command(cmd)] for a list of Python values.  The docstring asks
    for [str] tokens; with another item in the list the first statement,
    [" ".join(cmd)], raises [TypeError] before anything is logged or
    launched. *)
Definition run_command_py (cmd : list pyarg)
    : Py (option (option string * option string * Z)) :=
  match non_str_index cmd with
  | Some i =>
      raise (TypeError ("sequence item " +:+ str_int i
                        +:+ ": expected str instance, int found"))
  | None => run_command (texts cmd)
  end.

(** A call whose value is dropped: the statement [run_command(cmd)]. *)
Definition call_run_command (cmd : list pyarg) : Py unit :=
  run_command_py cmd;; mret tt.

(** The handler every wrapper has.  Its second statement names
    [traceback], which the module never imports. *)
Definition handler (what : string) (nzre : exn) : Py unit :=
  logging_error ("problem with " +:+ what);;
  raise (NameError "traceback").

(** tools.py:55 *)
Definition fasterq_dump_cmd (infile outdir : string) (nthreads : pyarg)
    (tempdir : string) : list pyarg :=
  py["fasterq-dump";
   "--split-files";
   "--include-technical";
   "--force";
   "--threads"; nthreads;
   "--outdir"; outdir;
   "-t"; tempdir;
   "--log-level"; "debug";
   infile].

Definition fasterq_dump (infile outdir : string) (nthreads : pyarg)
    (tempdir : string) : Py unit :=
  let cmd := fasterq_dump_cmd infile outdir nthreads tempdir in
  try_except (call_run_command cmd) (handler infile).

(** tools.py:73 *)
Definition star_nowasp_cmd (end1 end2 outprefix outtemp : string)
    (nthreads : pyarg) (genomedir : string) : list pyarg :=
  py["STAR";
   "--readFilesIn"; end1; end2;
   "--outFileNamePrefix"; outprefix;
   "--outTmpDir"; outtemp;
   "--runThreadN"; nthreads;
   "--genomeDir"; genomedir;
   "--twopassMode Basic";
   "--twopass1readsN -1";
   "--outSAMtype BAM Unsorted";
   "--quantMode GeneCounts"].

Definition star_cleanup (outprefix : string) : Py unit :=
  shutil_rmtree (STARgenome outprefix);;
  shutil_rmtree (STARpass1 outprefix).

Definition star_nowasp (end1 end2 outprefix outtemp : string)
    (nthreads : pyarg) (genomedir : string) : Py unit :=
  let cmd := star_nowasp_cmd end1 end2 outprefix outtemp nthreads genomedir in
  try_finally
    (try_except (call_run_command cmd)
                (handler (end1 +:+ "/" +:+ end2 +:+ " input files.")))
    (star_cleanup outprefix).

(** tools.py:96 *)
Definition samtools_sort_cmd (infile outfile : string) (memory nthreads : pyarg)
    : list pyarg :=
  py["samtools";
   "sort";
   "-m"; PyStr (fmt memory +:+ "M");
   "-o"; outfile;
   "-O"; "bam";
   "-@"; PyStr (fmt nthreads);
   infile].

Definition samtools_sort (infile outfile : string) (memory nthreads : pyarg)
    : Py unit :=
  let cmd := samtools_sort_cmd infile outfile memory nthreads in
  try_except (call_run_command cmd) (handler infile).

(** tools.py:112 *)
Definition samtools_index_cmd (infile : string) (nthreads : pyarg)
    : list pyarg :=
  py["samtools";
   "index";
   "-@"; PyStr (fmt nthreads);
   infile].

Definition samtools_index (infile : string) (nthreads : pyarg) : Py unit :=
  let cmd := samtools_index_cmd infile nthreads in
  try_except (call_run_command cmd) (handler infile).

(** tools.py:124 *)
Definition samtools_view_region_cmd (infile outfile region : string)
    : list pyarg :=
  py["samtools";
   "view";
   "-b"; infile;
   "-o"; outfile;
   region].

Definition samtools_view_region (infile outfile region : string) : Py unit :=
  let cmd := samtools_view_region_cmd infile outfile region in
  try_except (call_run_command cmd) (handler infile).

(** tools.py:138 *)
Definition samtools_view_quality_cmd (infile outfile : string)
    (quality : pyarg) : list pyarg :=
  py["samtools";
   "view";
   "-q"; quality;
   "-b"; infile;
   "-o"; outfile].

Definition samtools_view_quality (infile outfile : string) (quality : pyarg)
    : Py unit :=
  let cmd := samtools_view_quality_cmd infile outfile quality in
  try_except (call_run_command cmd) (handler infile).

(** tools.py:151 *)
Definition gatk_arrg_cmd (infile outfile : string) : list pyarg :=
  py["gatk";
   "AddOrReplaceReadGroups";
   "-I"; infile;
   "-O"; outfile;
   "-SO"; "coordinate";
   "-RGID"; "id";
   "-RGLB"; "library";
   "-RGPL"; "platform";
   "-RGPU"; "machine";
   "-RGSM"; "sample"].

Definition gatk_arrg (infile outfile : string) : Py unit :=
  let cmd := gatk_arrg_cmd infile outfile in
  try_except (call_run_command cmd) (handler infile).

(** tools.py:171 *)
Definition gatk_md_cmd (infile outfile metrics : string) : list pyarg :=
  py["gatk";
   "MarkDuplicates";
   "-I"; infile;
   "-O"; outfile;
   "-CREATE_INDEX"; "true";
   "-VALIDATION_STRINGENCY"; "SILENT";
   "-M"; metrics].

Definition gatk_md (infile outfile metrics : string) : Py unit :=
  let cmd := gatk_md_cmd infile outfile metrics in
  try_except (call_run_command cmd) (handler infile).

(** tools.py:189 *)
Definition gatk_sncr_cmd (infile outfile genome : string) : list pyarg :=
  py["gatk"; "SplitNCigarReads";
   "-R"; genome;
   "-I"; infile;
   "-O"; outfile].

Definition gatk_sncr (infile outfile genome : string) : Py unit :=
  let cmd := gatk_sncr_cmd infile outfile genome in
  try_except (call_run_command cmd) (handler infile).

(** tools.py:205; [interval] is not used. *)
Definition gatk_htc_cmd (infile outfile genome interval : string)
    : list pyarg :=
  py["gatk";
   "HaplotypeCaller";
   "-R"; genome;
   "-I"; infile;
   "-O"; outfile;
   "--dont-use-soft-clipped-bases";
   "-stand-call-conf"; "0.0"].

Definition gatk_htc (infile outfile genome interval : string) : Py unit :=
  let cmd := gatk_htc_cmd infile outfile genome interval in
  try_except (call_run_command cmd) (handler infile).

(** The ten wrappers that call [run_command], each with its arguments.
    File names, directories, prefixes and regions are text; thread
    counts, memory and quality are text or numbers. *)
Inductive wrapper_call :=
  | Fasterq_dump (infile outdir : string) (nthreads : pyarg) (tempdir : string)
  | Star_nowasp (end1 end2 outprefix outtemp : string) (nthreads : pyarg)
      (genomedir : string)
  | Samtools_sort (infile outfile : string) (memory nthreads : pyarg)
  | Samtools_index (infile : string) (nthreads : pyarg)
  | Samtools_view_region (infile outfile region : string)
  | Samtools_view_quality (infile outfile : string) (quality : pyarg)
  | Gatk_arrg (infile outfile : string)
  | Gatk_md (infile outfile metrics : string)
  | Gatk_sncr (infile outfile genome : string)
  | Gatk_htc (infile outfile genome interval : string).

Definition invoke (c : wrapper_call) : Py unit :=
  match c with
  | Fasterq_dump a b c d => fasterq_dump a b c d
  | Star_nowasp a b c d e f => star_nowasp a b c d e f
  | Samtools_sort a b c d => samtools_sort a b c d
  | Samtools_index a b => samtools_index a b
  | Samtools_view_region a b c => samtools_view_region a b c
  | Samtools_view_quality a b c => samtools_view_quality a b c
  | Gatk_arrg a b => gatk_arrg a b
  | Gatk_md a b c => gatk_md a b c
  | Gatk_sncr a b c => gatk_sncr a b c
  | Gatk_htc a b c d => gatk_htc a b c d
  end.

(** The argument vector a wrapper builds. *)
Definition command_of (c : wrapper_call) : list pyarg :=
  match c with
  | Fasterq_dump a b c d => fasterq_dump_cmd a b c d
  | Star_nowasp a b c d e f => star_nowasp_cmd a b c d e f
  | Samtools_sort a b c d => samtools_sort_cmd a b c d
  | Samtools_index a b => samtools_index_cmd a b
  | Samtools_view_region a b c => samtools_view_region_cmd a b c
  | Samtools_view_quality a b c => samtools_view_quality_cmd a b c
  | Gatk_arrg a b => gatk_arrg_cmd a b
  | Gatk_md a b c => gatk_md_cmd a b c
  | Gatk_sncr a b c => gatk_sncr_cmd a b c
  | Gatk_htc a b c d => gatk_htc_cmd a b c d
  end.

(** What a wrapper does once its [except] clause is struck out: the bare
    call, followed for [star_nowasp] by the [finally] block. *)
Definition without_handler (c : wrapper_call) : Py unit :=
  match c with
  | Star_nowasp _ _ outprefix _ _ _ =>
      try_finally (call_run_command (command_of c)) (star_cleanup outprefix)
  | _ => call_run_command (command_of c)
  end.

(** The child's exit status for [cmd] in world [w], when the launch
    succeeds. *)
Definition child_exit (cmd : list string) (w : World) : option Z :=
  match spawn cmd (fs w) (clock w) with
  | Return r => Some (cr_returncode r)
  | Raise _ => None
  end.

(** What the child writes for [cmd] in world [w], when the launch
    succeeds. *)
Definition child_writes (cmd : list string) (w : World)
    : option (list (stream * string)) :=
  match spawn cmd (fs w) (clock w) with
  | Return r => Some (cr_writes r)
  | Raise _ => None
  end.

(** The text the child's output decodes to, when the launch succeeds and
    the bytes are valid in the locale's encoding. *)
Definition child_text (cmd : list string) (w : World) : option string :=
  match spawn cmd (fs w) (clock w) with
  | Return r => decode (printed (cr_writes r))
  | Raise _ => None
  end.

(** The first token of [cmd] does not resolve to an executable. *)
Definition unresolved (cmd : list string) (w : World) : bool :=
  match cmd with
  | [] => false
  | prog :: _ =>
      match which prog (fs w) with
      | Executable _ => false
      | _ => true
      end
  end.

End Tools.

(** The records of one severity. *)
Definition records_at (l : level) (rs : list log_record) : list log_record :=
  List.filter (fun r => level_eqb (lr_level r) l) rs.

(** A tool is deterministic on [cmd] when what it does depends on the
    filesystem only, not on the moment it is started. *)
Definition deterministic (which : string -> FS -> resolution)
    (cmd : list string) : Prop :=
  forall prog rest p f t1 t2,
    cmd = prog :: rest -> which prog f = Executable p ->
    p cmd f t1 = p cmd f t2.

(** ** A small operating system to run the definitions on *)

Module Sample.

Definition nl : string := String (ascii_of_nat 10) EmptyString.

(** A continuation byte of UTF-8, [10xxxxxx]. *)
Definition continuation (b : ascii) : bool :=
  (128 <=? N_of_ascii b)%N && (N_of_ascii b <=? 191)%N.

Definition between (lo hi : N) (b : ascii) : bool :=
  (lo <=? N_of_ascii b)%N && (N_of_ascii b <=? hi)%N.

(** Well-formed UTF-8: shortest forms only, no surrogates, nothing above
    U+10FFFF. *)
Fixpoint utf8_valid (bytes : string) : bool :=
  match bytes with
  | EmptyString => true
  | String a s1 =>
      if between 0 127 a then utf8_valid s1
      else if between 194 223 a then
        match s1 with
        | String b s2 => continuation b && utf8_valid s2
        | _ => false
        end
      else if between 224 239 a then
        match s1 with
        | String b (String c s3) =>
            (if between 224 224 a then between 160 191 b
             else if between 237 237 a then between 128 159 b
             else continuation b)
            && continuation c && utf8_valid s3
        | _ => false
        end
      else if between 240 244 a then
        match s1 with
        | String b (String c (String d s4)) =>
            (if between 240 240 a then between 144 191 b
             else if between 244 244 a then between 128 143 b
             else continuation b)
            && continuation c && continuation d && utf8_valid s4
        | _ => false
        end
      else false
  end.

(** A UTF-8 locale.  Text is kept in its UTF-8 form, so decoding checks
    the bytes and hands them on. *)
Definition decode (bytes : string) : option string :=
  if utf8_valid bytes then Some bytes else None.

(** [echo]: prints its arguments and succeeds. *)
Definition echo : program := fun argv f _ =>
  ChildResult [(Stdout, join " " (tail argv) +:+ nl)] 0 f 1500.

(** [false]: fails without a word. *)
Definition false_ : program := fun _ f _ => ChildResult [] 1 f 900.

(** [complain]: writes to both streams and fails with status 2. *)
Definition complain : program := fun _ f _ =>
  ChildResult [(Stdout, "begin;"); (Stderr, "oops;"); (Stdout, "end")] 2 f 2000000.

(** [chatty]: writes to both streams and succeeds. *)
Definition chatty : program := fun _ f _ =>
  ChildResult [(Stderr, "warming up;"); (Stdout, "done")] 0 f 3000000.

(** [spinner]: redraws its progress line with a carriage return. *)
Definition spinner : program := fun _ f _ =>
  ChildResult [(Stdout, "working" +:+ String CR "done")] 0 f 400000.

(** [garble]: writes the single byte 255, which no UTF-8 text holds; it
    succeeds when called alone and exits with status 3 when given
    arguments. *)
Definition garble : program := fun argv f _ =>
  ChildResult [(Stdout, String (ascii_of_nat 255) EmptyString)]
    (match tail argv with [] => 0 | _ :: _ => 3 end) f 7000.

(** [stamp]: its exit status is the parity of the clock. *)
Definition stamp : program := fun _ f t => ChildResult [] (t mod 2) f 10.

(** [STAR]: with a genome directory to read (the token after
    [--genomeDir]) it leaves the two working directories of a two-pass
    run behind, under the prefix that follows [--outFileNamePrefix];
    without one it gives up at once. *)
Definition STAR : program := fun argv f _ =>
  let outprefix := nth 5 argv "" in
  let genomedir := nth 11 argv "" in
  match f !! genomedir with
  | Some Dir =>
      ChildResult [(Stdout, "finished successfully")] 0
        (<[outprefix +:+ "_STARpass1" := Dir]>
           (<[outprefix +:+ "_STARgenome" := Dir]> f))
        60000000
  | _ =>
      ChildResult [(Stderr, "EXITING because of fatal input ERROR")] 102 f 20000
  end.

Definition which (name : string) (f : FS) : resolution :=
  if String.eqb name "echo" then Executable echo
  else if String.eqb name "false" then Executable false_
  else if String.eqb name "complain" then Executable complain
  else if String.eqb name "chatty" then Executable chatty
  else if String.eqb name "stamp" then Executable stamp
  else if String.eqb name "spinner" then Executable spinner
  else if String.eqb name "garble" then Executable garble
  else if String.eqb name "STAR" then
    match f !! "/usr/bin/STAR" with
    | Some File => Executable STAR
    | _ => NotFound
    end
  else if String.eqb name "notes.txt" then NotExecutable
  else NotFound.


Definition empty_world : World := mkWorld ∅ 0 [] [].

(** A later moment of a longer session: same filesystem, other clock,
    log and launch history. *)
Definition later_world : World :=
  mkWorld ∅ 86400000777 [LogRecord INFO "successfully ran true"] [["true"]].

(** A machine on which the aligner is installed, without a genome. *)
Definition star_world : World :=
  mkWorld {[ "/usr/bin/STAR" := File ]} 0 [] [].

(** The same machine with a genome index in [/ref]. *)
Definition genome_world : World :=
  mkWorld (<[ "/ref" := Dir ]> {[ "/usr/bin/STAR" := File ]}) 0 [] [].

End Sample.

(** ** The worlds a run goes through *)

(** After the announcement and the launch attempt. *)
Definition started (cmd : list string) (w : World) : World :=
  add_launch cmd
    (add_log (LogRecord INFO ("running command: " +:+ join " " cmd +:+ " ")) w).

(** After the child has run to its end with result [r]. *)
Definition launched (cmd : list string) (r : child_result) (w : World) : World :=
  set_clock (clock w + cr_elapsed r) (set_fs (cr_fs r) (started cmd w)).

(** After the child has exited with result [r], its output was read as
    [out], and the two diagnostic records are written. *)
Definition exited (cmd : list string) (r : child_result) (out : string)
    (w : World) : World :=
  add_log (LogRecord DEBUG ("got stdout: " +:+ out))
    (add_log
       (LogRecord DEBUG
          ("ran cmd='" +:+ join " " cmd +:+ "' return="
           +:+ str_int (cr_returncode r) +:+ " "
           +:+ str_int (timedelta_seconds (clock w + cr_elapsed r - clock w))
           +:+ " seconds."))
       (launched cmd r w)).

(** The directory the cleanup of [star_nowasp] finds missing, if any: the
    first of the two that is absent when its removal is reached. *)
Definition missing_at_cleanup (outprefix : string) (f : FS) : option string :=
  match f !! STARgenome outprefix with
  | None => Some (STARgenome outprefix)
  | Some Dir =>
      match f !! STARpass1 outprefix with
      | None => Some (STARpass1 outprefix)
      | Some _ => None
      end
  | Some _ => None
  end.

Definition success_record (cmd : list string) : log_record :=
  LogRecord INFO ("successfully ran " +:+ join " " cmd).

Definition warning_record (cmd : list string) : log_record :=
  LogRecord WARNING ("non-zero return code for cmd " +:+ join " " cmd).

(** ** The records of one run *)

Definition announcement (cmd : list string) : log_record :=
  LogRecord INFO ("running command: " +:+ join " " cmd +:+ " ").

Definition ran_record (cmd : list string) (r : child_result) : log_record :=
  LogRecord DEBUG
    ("ran cmd='" +:+ join " " cmd +:+ "' return="
     +:+ str_int (cr_returncode r) +:+ " "
     +:+ str_int (timedelta_seconds (cr_elapsed r)) +:+ " seconds.").

Definition stdout_record (out : string) : log_record :=
  LogRecord DEBUG ("got stdout: " +:+ out).

(** What one call of [run_command] adds to the log. *)
Definition run_records (which : string -> FS -> resolution)
    (decode : string -> option string)
    (cmd : list string) (w : World) : list log_record :=
  skipn (length (logs w)) (logs (snd (run_command which decode cmd w))).

Definition is_star (c : wrapper_call) : bool :=
  match c with
  | Star_nowasp _ _ _ _ _ _ => true
  | _ => false
  end.

(** tools.py:224.  The body holds two string literals and nothing else:
    the function returns [None] at once. *)
Definition gatk_sv (infile outfile genome interval : string) : Py unit :=
  mret tt.

(** ** The root logger and [setup_logging] *)

Definition levelno (l : level) : Z :=
  match l with
  | DEBUG => 10
  | INFO => 20
  | WARNING => 30
  | ERROR => 40
  | CRITICAL => 50
  end.

Inductive std_stream := SysStdout | SysStderr.

(** A [logging.StreamHandler]: where it writes and the format string of
    its formatter. *)
Record stream_handler := StreamHandler {
  sh_stream : std_stream;
  sh_format : string
}.

Record root_logger := RootLogger {
  root_handlers : list stream_handler;
  root_level : Z
}.

(** [logging.BASIC_FORMAT]. *)
Definition BASIC_FORMAT : string := "%(levelname)s:%(name)s:%(message)s".

(** tools.py:17 *)
Definition FORMAT : string :=
  "%(asctime)s (UTC) [ %(levelname)s ] %(name)s %(filename)s:%(lineno)d %(funcName)s(): %(message)s".

(** The root logger of a fresh interpreter: no handler, level WARNING. *)
Definition fresh_root : root_logger := RootLogger [] 30.

(** [logging.basicConfig()] without arguments: a root logger that has no
    handler gets one that writes to [sys.stderr] in the basic format; a
    root logger that has handlers is left alone. *)
Definition basicConfig (lg : root_logger) : root_logger :=
  match root_handlers lg with
  | [] => RootLogger [StreamHandler SysStderr BASIC_FORMAT] (root_level lg)
  | _ :: _ => lg
  end.

(** [logger.addHandler(h)] for a handler object just made, which cannot
    be in the list yet. *)
Definition addHandler (h : stream_handler) (lg : root_logger) : root_logger :=
  RootLogger (root_handlers lg ++ [h]) (root_level lg).

Definition setLevel (l : Z) (lg : root_logger) : root_logger :=
  RootLogger (root_handlers lg) l.

(** tools.py:12 *)
Definition setup_logging (level : Z) (lg : root_logger) : root_logger :=
  let lg := basicConfig lg in
  let streamHandler := StreamHandler SysStdout FORMAT in
  let lg := addHandler streamHandler lg in
  setLevel level lg.

(** What the root logger does with a record: below its level nothing,
    otherwise one line per handler. *)
Definition handle (lg : root_logger) (r : log_record)
    : list (stream_handler * log_record) :=
  if root_level lg <=? levelno (lr_level r)
  then map (fun h => (h, r)) (root_handlers lg)
  else [].

(** The module-level [logging.debug], [logging.info], [logging.warn] and
    [logging.error]: they call [basicConfig()] first when the root logger
    has no handler. *)
Definition logging_call (lg : root_logger) (r : log_record)
    : root_logger * list (stream_handler * log_record) :=
  let lg := basicConfig lg in (lg, handle lg r).

Fixpoint logging_calls (lg : root_logger) (rs : list log_record)
    : root_logger * list (stream_handler * log_record) :=
  match rs with
  | [] => (lg, [])
  | r :: rest =>
      let (lg1, lines1) := logging_call lg r in
      let (lg2, lines2) := logging_calls lg1 rest in
      (lg2, (lines1 ++ lines2)%list)
  end.

Definition stdout_lines (lines : list (stream_handler * log_record)) : nat :=
  length (List.filter
            (fun l => match sh_stream (fst l) with SysStdout => true | SysStderr => false end)
            lines).

(** The number of handlers of the root logger that write to [sys.stdout]. *)
Definition stdout_handlers (lg : root_logger) : nat :=
  length (List.filter
            (fun h => match sh_stream h with SysStdout => true | SysStderr => false end)
            (root_handlers lg)).

(** [setup_logging] called once per level of [levels], in order. *)
Definition setup_logging_each (levels : list Z) (lg : root_logger) : root_logger :=
  fold_left (fun lg level => setup_logging level lg) levels lg.

(** ** A second sample system, with a BAM tool *)

Module Lab.

(** [samtools]: succeeds when the file named by its last argument exists,
    and fails with status 1 otherwise. *)
Definition samtools : program := fun argv f _ =>
  match f !! List.last argv "" with
  | Some File => ChildResult [] 0 f 5000000
  | _ => ChildResult [(Stderr, "[E::hts_open_format] Failed to open file")] 1 f 30000
  end.

(** [overnight]: a job that takes 25 hours. *)
Definition overnight : program := fun _ f _ =>
  ChildResult [(Stdout, "done")] 0 f 90000000000.

Definition which (name : string) (f : FS) : resolution :=
  if String.eqb name "samtools" then Executable samtools
  else if String.eqb name "overnight" then Executable overnight
  else Sample.which name f.

(** A machine without the aligner, on which an earlier run has left its
    working directories. *)
Definition leftover_world : World :=
  mkWorld (<[ "out_STARgenome/SA" := File ]>
             (<[ "out_STARgenome" := Dir ]>
                (<[ "out_STARpass1" := Dir ]> {[ "reads.fq" := File ]})))
          0 [] [].

End Lab.

(** * Properties *)

(** ** Text and numbers *)

Lemma to_int_proper (n : Z) :
  Z.to_int n <> Decimal.Pos Decimal.Nil /\ Z.to_int n <> Decimal.Neg Decimal.Nil.
Proof.
  destruct n as [|p|p]; simpl; split; try discriminate;
    intros [= H]; exact (DecimalPos.Unsigned.to_uint_nonnil p H).
Qed.

(** Decimal rendering loses nothing: different numbers print differently. *)
Lemma str_int_inj (a b : Z) : str_int a = str_int b -> a = b.
Proof.
  unfold str_int. intros H.
  apply DecimalZ.to_int_inj.
  destruct (to_int_proper a) as [Ha1 Ha2], (to_int_proper b) as [Hb1 Hb2].
  pose proof (NilZero.isi _ Ha1 Ha2) as Ea.
  pose proof (NilZero.isi _ Hb1 Hb2) as Eb.
  rewrite H in Ea. congruence.
Qed.

(** The test [str(cp.returncode) == '0'] holds for the status 0 only. *)
Lemma returncode_test (n : Z) : String.eqb (str_int n) "0" = (n =? 0).
Proof.
  destruct (Z.eqb_spec n 0) as [->|Hn].
  - reflexivity.
  - apply String.eqb_neq. intros H. apply Hn.
    apply str_int_inj. exact H.
Qed.

(** With [stdout=PIPE, stderr=STDOUT] the output pipe carries every chunk
    of both streams, in the order written. *)
Lemma collect_merged (writes : list (stream * string)) :
  collect PIPE STDOUT ToStdoutPipe writes = printed writes.
Proof.
  induction writes as [|[s chunk] rest IH]; simpl.
  - reflexivity.
  - destruct s; simpl; rewrite IH; reflexivity.
Qed.

(** Text without a carriage return passes the newline translation
    unchanged. *)
Lemma translate_newlines_plain (text : string) :
  has_CR text = false -> translate_newlines text = text.
Proof.
  induction text as [|c rest IH]; simpl.
  - reflexivity.
  - destruct (Ascii.eqb c CR); simpl; [discriminate|].
    intros H. rewrite (IH H). reflexivity.
Qed.

(** ** Paths *)

Lemma prefix_app (a x y : string) :
  String.prefix (a +:+ x) (a +:+ y) = String.prefix x y.
Proof.
  induction a as [|c a IH].
  - reflexivity.
  - change (String.prefix (String c (a +:+ x)) (String c (a +:+ y))
            = String.prefix x y).
    simpl. destruct (ascii_dec c c) as [_|Hc]; [exact IH | contradiction].
Qed.

Lemma eqb_app (a x y : string) :
  String.eqb (a +:+ x) (a +:+ y) = String.eqb x y.
Proof.
  induction a as [|c a IH].
  - reflexivity.
  - change (String.eqb (String c (a +:+ x)) (String c (a +:+ y))
            = String.eqb x y).
    simpl. rewrite Ascii.eqb_refl. exact IH.
Qed.

Lemma string_app_assoc (a b c : string) : (a +:+ b) +:+ c = a +:+ (b +:+ c).
Proof.
  induction a as [|x a IH].
  - reflexivity.
  - change (String x ((a +:+ b) +:+ c) = String x (a +:+ (b +:+ c))).
    rewrite IH. reflexivity.
Qed.

(** The second working directory does not lie beneath the first, so
    removing the first leaves it alone. *)
Lemma pass1_not_beneath_genome (outprefix : string) :
  beneath (STARgenome outprefix) (STARpass1 outprefix) = false.
Proof.
  unfold beneath, STARgenome, STARpass1.
  rewrite eqb_app, string_app_assoc, prefix_app. reflexivity.
Qed.

Lemma beneath_refl (p : string) : beneath p p = true.
Proof. unfold beneath. rewrite String.eqb_refl. reflexivity. Qed.

Lemma remove_tree_lookup (p k : string) (f : FS) :
  remove_tree p f !! k = if beneath p k then None else f !! k.
Proof.
  unfold remove_tree.
  destruct (beneath p k) eqn:E.
  - apply map_lookup_filter_None. right. intros x _. simpl. congruence.
  - destruct (f !! k) as [x|] eqn:Ek.
    + apply map_lookup_filter_Some. split; [exact Ek | exact E].
    + apply map_lookup_filter_None. left. exact Ek.
Qed.

(** ** The runner, case by case *)

Section Runner.

Variable which : string -> FS -> resolution.
Variable decode : string -> option string.

Lemma run_command_launch_failed cmd w e :
  spawn which cmd (fs w) (clock w) = Raise e ->
  run_command which decode cmd w = (Raise e, started cmd w).
Proof.
  intros H.
  unfold run_command, mbind, Py_bind, logging_info, log, get_clock,
    subprocess_run.
  simpl. rewrite H. reflexivity.
Qed.

Lemma run_command_undecodable cmd w r :
  spawn which cmd (fs w) (clock w) = Return r ->
  decode (printed (cr_writes r)) = None ->
  run_command which decode cmd w = (Raise UnicodeDecodeError, launched cmd r w).
Proof.
  intros H Hd.
  unfold run_command, mbind, Py_bind, logging_info, log, get_clock,
    subprocess_run, read_pipe.
  simpl. rewrite H. simpl. rewrite collect_merged, Hd. reflexivity.
Qed.

Lemma run_command_exit_zero cmd w r text :
  spawn which cmd (fs w) (clock w) = Return r ->
  decode (printed (cr_writes r)) = Some text ->
  cr_returncode r = 0 ->
  run_command which decode cmd w =
    (Return (Some (None, Some (translate_newlines text), cr_returncode r)),
     add_log (success_record cmd) (exited cmd r (translate_newlines text) w)).
Proof.
  intros H Hd H0.
  unfold run_command, mbind, Py_bind, logging_info, logging_debug, log,
    get_clock, subprocess_run, read_pipe.
  simpl. rewrite H. simpl. rewrite collect_merged, Hd. simpl.
  rewrite returncode_test.
  destruct (Z.eqb_spec (cr_returncode r) 0) as [_|E]; [|contradiction].
  reflexivity.
Qed.

Lemma run_command_exit_nonzero cmd w r text :
  spawn which cmd (fs w) (clock w) = Return r ->
  decode (printed (cr_writes r)) = Some text ->
  cr_returncode r <> 0 ->
  run_command which decode cmd w =
    (Return None,
     add_log (warning_record cmd) (exited cmd r (translate_newlines text) w)).
Proof.
  intros H Hd H0.
  unfold run_command, mbind, Py_bind, logging_info, logging_debug,
    logging_warn, log, get_clock, subprocess_run, read_pipe.
  simpl. rewrite H. simpl. rewrite collect_merged, Hd. simpl.
  rewrite returncode_test.
  destruct (Z.eqb_spec (cr_returncode r) 0) as [E|_]; [contradiction|].
  reflexivity.
Qed.

(** A launch fails with an error of the operating system, or with
    [IndexError] on an empty vector; never with the module's own class. *)
Lemma spawn_raises cmd f now e :
  spawn which cmd f now = Raise e ->
  is_NonZeroReturnException e = false /\
  (e = IndexError \/ is_OSError e = true).
Proof.
  unfold spawn. destruct cmd as [|prog rest].
  - intros [= <-]. split; [reflexivity | left; reflexivity].
  - destruct (which prog f); intros [= <-]; split; try reflexivity;
      right; reflexivity.
Qed.

Lemma child_exit_spawn cmd w c :
  child_exit which cmd w = Some c ->
  exists r, spawn which cmd (fs w) (clock w) = Return r /\ cr_returncode r = c.
Proof.
  unfold child_exit.
  destruct (spawn which cmd (fs w) (clock w)) as [r|e]; intros [= <-].
  exists r. split; reflexivity.
Qed.

Lemma child_text_spawn cmd w r :
  spawn which cmd (fs w) (clock w) = Return r ->
  child_text which decode cmd w = decode (printed (cr_writes r)).
Proof. intros H. unfold child_text. rewrite H. reflexivity. Qed.

(** The four ways a run can end. *)
Lemma run_command_cases cmd w :
  (exists e, spawn which cmd (fs w) (clock w) = Raise e /\
             run_command which decode cmd w = (Raise e, started cmd w)) \/
  (exists r, spawn which cmd (fs w) (clock w) = Return r /\
             decode (printed (cr_writes r)) = None /\
             run_command which decode cmd w
             = (Raise UnicodeDecodeError, launched cmd r w)) \/
  (exists r text,
      spawn which cmd (fs w) (clock w) = Return r /\
      decode (printed (cr_writes r)) = Some text /\
      cr_returncode r = 0 /\
      run_command which decode cmd w =
        (Return (Some (None, Some (translate_newlines text), cr_returncode r)),
         add_log (success_record cmd) (exited cmd r (translate_newlines text) w))) \/
  (exists r text,
      spawn which cmd (fs w) (clock w) = Return r /\
      decode (printed (cr_writes r)) = Some text /\
      cr_returncode r <> 0 /\
      run_command which decode cmd w =
        (Return None,
         add_log (warning_record cmd) (exited cmd r (translate_newlines text) w))).
Proof.
  destruct (spawn which cmd (fs w) (clock w)) as [r|e] eqn:E.
  - destruct (decode (printed (cr_writes r))) as [text|] eqn:Hd.
    + destruct (Z.eq_dec (cr_returncode r) 0) as [H0|H0].
      * right; right; left. exists r, text.
        eauto using run_command_exit_zero.
      * right; right; right. exists r, text.
        eauto using run_command_exit_nonzero.
    + right; left. exists r. eauto using run_command_undecodable.
  - left. exists e. eauto using run_command_launch_failed.
Qed.

(** *** Success *)

(** C1, as the code has it.  Whenever the child started for [cmd] exits
    with status 0 and what it wrote is valid text in the locale's
    encoding, [run_command] returns a triple, and the third component of
    the triple, the exit code, is 0. *)
Theorem run_command_exit_code_zero cmd w text :
  child_exit which cmd w = Some 0 ->
  child_text which decode cmd w = Some text ->
  exists err out,
    fst (run_command which decode cmd w) = Return (Some (err, out, 0)).
Proof.
  intros H Ht. apply child_exit_spawn in H as (r & Hs & H0).
  rewrite (child_text_spawn _ _ _ Hs) in Ht.
  rewrite (run_command_exit_zero _ _ _ _ Hs Ht H0). simpl.
  rewrite H0. eauto.
Qed.

(** C8, as the code has it.  The child runs with both of its streams on
    one captured pipe, read in text mode.  When it exits with status 0
    and what it printed, every chunk of both streams in the order
    written, decodes to [text], the returned triple has exit code 0 and
    its output component is [text] with every CR LF and every lone CR
    turned into LF; for text without a carriage return that is the
    printed text itself. *)
Theorem run_command_captures_printed_text cmd w writes text :
  child_writes which cmd w = Some writes ->
  child_exit which cmd w = Some 0 ->
  decode (printed writes) = Some text ->
  fst (run_command which decode cmd w)
  = Return (Some (None, Some (translate_newlines text), 0)) /\
  (has_CR text = false ->
   fst (run_command which decode cmd w) = Return (Some (None, Some text, 0))).
Proof.
  intros Hw H Hd. apply child_exit_spawn in H as (r & Hs & H0).
  unfold child_writes in Hw. rewrite Hs in Hw. injection Hw as <-.
  rewrite (run_command_exit_zero _ _ _ _ Hs Hd H0). simpl.
  rewrite H0. split; [reflexivity|].
  intros Hc. rewrite (translate_newlines_plain _ Hc). reflexivity.
Qed.

(** C10.  Whenever [run_command] returns a triple, its first component,
    the captured error stream, is [None]: the error stream was sent into
    the output pipe and never captured on its own. *)
Theorem run_command_stderr_is_None cmd w err out code :
  fst (run_command which decode cmd w) = Return (Some (err, out, code)) ->
  err = None.
Proof.
  destruct (run_command_cases cmd w)
    as [(e & _ & ->) | [(r & _ & _ & ->)
        | [(r & t & _ & _ & _ & ->) | (r & t & _ & _ & _ & ->)]]]; simpl.
  - discriminate.
  - discriminate.
  - intros [= <- _ _]. reflexivity.
  - discriminate.
Qed.

(** *** Failure *)

(** C2, as the code has it.  Whenever the child started for [cmd] exits
    with a status other than 0 and what it wrote is valid text in the
    locale's encoding, [run_command] completes without an exception,
    returns [None], and the last record it logs is a warning that names
    the command. *)
Theorem run_command_nonzero_exit cmd w c text :
  child_exit which cmd w = Some c ->
  c <> 0 ->
  child_text which decode cmd w = Some text ->
  fst (run_command which decode cmd w) = Return None /\
  exists earlier,
    logs (snd (run_command which decode cmd w))
    = ((logs w ++ earlier) ++ [LogRecord WARNING
         ("non-zero return code for cmd " +:+ join " " cmd)])%list.
Proof.
  intros H Hc Ht. apply child_exit_spawn in H as (r & Hs & H0).
  rewrite (child_text_spawn _ _ _ Hs) in Ht.
  subst c. rewrite (run_command_exit_nonzero _ _ _ _ Hs Ht Hc). simpl.
  split; [reflexivity|].
  eexists [_; _; _]. rewrite <- !app_assoc. reflexivity.
Qed.

(** C3.  Whenever the first token of [cmd] does not resolve to an
    executable, [run_command] is left by an exception: an [OSError] of
    the launch ([FileNotFoundError] or [PermissionError], naming the
    token), which is neither the [None] of a non-zero exit nor any other
    returned value. *)
Theorem run_command_launch_failure cmd w :
  unresolved which cmd w = true ->
  exists prog e,
    hd_error cmd = Some prog /\
    (e = FileNotFoundError prog \/ e = PermissionError prog) /\
    is_OSError e = true /\
    fst (run_command which decode cmd w) = Raise e /\
    forall v, fst (run_command which decode cmd w) <> Return v.
Proof.
  unfold unresolved. destruct cmd as [|prog rest]; [discriminate|].
  intros H. exists prog.
  destruct (which prog (fs w)) as [| |p] eqn:E; [| |discriminate].
  - exists (FileNotFoundError prog).
    assert (Hs : spawn which (prog :: rest) (fs w) (clock w)
                 = Raise (FileNotFoundError prog))
      by (simpl; rewrite E; reflexivity).
    rewrite (run_command_launch_failed _ _ _ Hs). simpl.
    repeat split; auto; discriminate.
  - exists (PermissionError prog).
    assert (Hs : spawn which (prog :: rest) (fs w) (clock w)
                 = Raise (PermissionError prog))
      by (simpl; rewrite E; reflexivity).
    rewrite (run_command_launch_failed _ _ _ Hs). simpl.
    repeat split; auto; discriminate.
Qed.

(** *** The wrappers *)

Lemma run_command_never_NonZeroReturnException cmd w :
  fst (run_command which decode cmd w) <> Raise NonZeroReturnException.
Proof.
  destruct (run_command_cases cmd w)
    as [(e & Hs & ->) | [(r & _ & _ & ->)
        | [(r & t & _ & _ & _ & ->) | (r & t & _ & _ & _ & ->)]]]; simpl;
    try discriminate.
  apply spawn_raises in Hs as [Hs _].
  intros [= ->]. discriminate.
Qed.

(** A list with an item that is not a [str] stops [run_command] at its
    first statement. *)
Lemma run_command_py_ill_typed cmd w i :
  non_str_index cmd = Some i ->
  run_command_py which decode cmd w
  = (Raise (TypeError ("sequence item " +:+ str_int i
                       +:+ ": expected str instance, int found")), w).
Proof. intros H. unfold run_command_py. rewrite H. reflexivity. Qed.

Lemma run_command_py_well_typed cmd w :
  non_str_index cmd = None ->
  run_command_py which decode cmd w = run_command which decode (texts cmd) w.
Proof. intros H. unfold run_command_py. rewrite H. reflexivity. Qed.

Lemma run_command_py_never_NonZeroReturnException cmd w :
  fst (run_command_py which decode cmd w) <> Raise NonZeroReturnException.
Proof.
  destruct (non_str_index cmd) as [i|] eqn:E.
  - rewrite (run_command_py_ill_typed _ _ _ E). discriminate.
  - rewrite (run_command_py_well_typed _ _ E).
    apply run_command_never_NonZeroReturnException.
Qed.

Lemma call_run_command_eq cmd w :
  call_run_command which decode cmd w =
    (match fst (run_command_py which decode cmd w) with
     | Return _ => Return tt
     | Raise e => Raise e
     end,
     snd (run_command_py which decode cmd w)).
Proof.
  unfold call_run_command, mbind, Py_bind.
  destruct (run_command_py which decode cmd w) as [[v|e] w']; reflexivity.
Qed.

Lemma call_run_command_raises cmd w e :
  fst (call_run_command which decode cmd w) = Raise e ->
  is_NonZeroReturnException e = false.
Proof.
  rewrite call_run_command_eq. simpl.
  destruct (fst (run_command_py which decode cmd w)) as [v|e'] eqn:E;
    [discriminate|].
  intros [= ->].
  destruct e; try reflexivity.
  exfalso. exact (run_command_py_never_NonZeroReturnException cmd w E).
Qed.

(** A handler for an exception the body cannot raise is dead code. *)
Lemma try_except_unreached body h w :
  (forall e, fst (body w) = Raise e -> is_NonZeroReturnException e = false) ->
  try_except body h w = body w.
Proof.
  intros H. unfold try_except.
  destruct (body w) as [[[]|e] w'] eqn:E; [reflexivity|].
  rewrite (H e eq_refl). reflexivity.
Qed.

Lemma try_except_call cmd h w :
  try_except (call_run_command which decode cmd) h w
  = call_run_command which decode cmd w.
Proof.
  apply try_except_unreached. intros e. apply call_run_command_raises.
Qed.

Lemma run_command_error_records cmd w :
  records_at ERROR (logs (snd (run_command which decode cmd w)))
  = records_at ERROR (logs w).
Proof.
  unfold records_at.
  destruct (run_command_cases cmd w)
    as [(e & _ & ->) | [(r & _ & _ & ->)
        | [(r & t & _ & _ & _ & ->) | (r & t & _ & _ & _ & ->)]]]; simpl;
    rewrite !List.filter_app; simpl; rewrite ?app_nil_r; reflexivity.
Qed.

Lemma run_command_py_error_records cmd w :
  records_at ERROR (logs (snd (run_command_py which decode cmd w)))
  = records_at ERROR (logs w).
Proof.
  destruct (non_str_index cmd) as [i|] eqn:E.
  - rewrite (run_command_py_ill_typed _ _ _ E). reflexivity.
  - rewrite (run_command_py_well_typed _ _ E).
    apply run_command_error_records.
Qed.

Lemma shutil_rmtree_logs path w :
  logs (snd (shutil_rmtree path w)) = logs w.
Proof.
  unfold shutil_rmtree. destruct (fs w !! path) as [[| |]|]; reflexivity.
Qed.

Lemma star_cleanup_logs outprefix w :
  logs (snd (star_cleanup outprefix w)) = logs w.
Proof.
  unfold star_cleanup, mbind, Py_bind.
  pose proof (shutil_rmtree_logs (STARgenome outprefix) w) as H1.
  destruct (shutil_rmtree (STARgenome outprefix) w) as [[[]|e] w1];
    simpl in *; [|exact H1].
  rewrite shutil_rmtree_logs. exact H1.
Qed.

Lemma try_finally_logs body cleanup w :
  (forall w', logs (snd (cleanup w')) = logs w') ->
  logs (snd (try_finally body cleanup w)) = logs (snd (body w)).
Proof.
  intros H. unfold try_finally.
  destruct (body w) as [r w1]. specialize (H w1).
  destruct (cleanup w1) as [[[]|e] w2]; exact H.
Qed.

(** C4.  [run_command] is never left by [NonZeroReturnException],
    whatever its input.  Hence in each of the ten wrappers the
    [except NonZeroReturnException] clause is dead: the wrapper does
    exactly what it does with the clause struck out, and the error
    record with which the handler begins is never logged. *)
Theorem NonZeroReturnException_handler_unreachable :
  (forall cmd w,
     fst (run_command which decode cmd w) <> Raise NonZeroReturnException) /\
  (forall c w, invoke which decode c w = without_handler which decode c w) /\
  (forall c w, records_at ERROR (logs (snd (invoke which decode c w)))
               = records_at ERROR (logs w)).
Proof.
  split; [exact run_command_never_NonZeroReturnException|].
  assert (E : forall c w,
             invoke which decode c w = without_handler which decode c w).
  { intros c w.
    destruct c; simpl;
      try (apply try_except_call).
    unfold star_nowasp, try_finally. rewrite try_except_call. reflexivity. }
  split; [exact E|].
  intros c w. rewrite E.
  destruct c; simpl;
    try (rewrite call_run_command_eq; apply run_command_py_error_records).
  rewrite try_finally_logs by apply star_cleanup_logs.
  rewrite call_run_command_eq. apply run_command_py_error_records.
Qed.

(** *** The cleanup of [star_nowasp] *)

Lemma star_nowasp_eq end1 end2 outprefix outtemp nthreads genomedir w :
  star_nowasp which decode end1 end2 outprefix outtemp nthreads genomedir w =
    match
      star_cleanup outprefix
        (snd (run_command_py which decode
                (star_nowasp_cmd end1 end2 outprefix outtemp nthreads genomedir) w))
    with
    | (Return tt, w2) =>
        (fst (call_run_command which decode
                (star_nowasp_cmd end1 end2 outprefix outtemp nthreads genomedir) w),
         w2)
    | (Raise e, w2) => (Raise e, w2)
    end.
Proof.
  unfold star_nowasp, try_finally.
  rewrite try_except_call, call_run_command_eq. reflexivity.
Qed.

Lemma star_cleanup_genome_missing outprefix w :
  fs w !! STARgenome outprefix = None ->
  star_cleanup outprefix w = (Raise (FileNotFoundError (STARgenome outprefix)), w).
Proof.
  intros H. unfold star_cleanup, mbind, Py_bind, shutil_rmtree.
  rewrite H. reflexivity.
Qed.

Lemma star_cleanup_pass1_missing outprefix w :
  fs w !! STARgenome outprefix = Some Dir ->
  fs w !! STARpass1 outprefix = None ->
  star_cleanup outprefix w =
    (Raise (FileNotFoundError (STARpass1 outprefix)),
     set_fs (remove_tree (STARgenome outprefix) (fs w)) w).
Proof.
  intros H1 H2. unfold star_cleanup, mbind, Py_bind, shutil_rmtree.
  rewrite H1. simpl.
  rewrite remove_tree_lookup, pass1_not_beneath_genome, H2. reflexivity.
Qed.

Lemma star_cleanup_both_present outprefix w :
  fs w !! STARgenome outprefix = Some Dir ->
  fs w !! STARpass1 outprefix = Some Dir ->
  star_cleanup outprefix w =
    (Return tt,
     set_fs (remove_tree (STARpass1 outprefix)
               (remove_tree (STARgenome outprefix) (fs w))) w).
Proof.
  intros H1 H2. unfold star_cleanup, mbind, Py_bind, shutil_rmtree.
  rewrite H1. simpl.
  rewrite remove_tree_lookup, pass1_not_beneath_genome, H2. reflexivity.
Qed.

Lemma star_cleanup_missing outprefix w d :
  missing_at_cleanup outprefix (fs w) = Some d ->
  fst (star_cleanup outprefix w) = Raise (FileNotFoundError d).
Proof.
  unfold missing_at_cleanup.
  destruct (fs w !! STARgenome outprefix) as [[| |]|] eqn:H1;
    try discriminate.
  - destruct (fs w !! STARpass1 outprefix) as [n|] eqn:H2; [discriminate|].
    intros [= <-]. rewrite star_cleanup_pass1_missing by assumption.
    reflexivity.
  - intros [= <-]. rewrite star_cleanup_genome_missing by assumption.
    reflexivity.
Qed.

(** C5.  The cleanup of [star_nowasp] runs after every invocation, on
    the world the invocation left and whatever its outcome was (a
    returned triple, the [None] of a non-zero exit, a failed launch or
    any other exception).  A working directory that is absent when its
    removal is reached makes the wrapper raise [FileNotFoundError] for
    that directory; when both are there, both are gone afterwards and
    the outcome of the invocation stands. *)
Theorem star_nowasp_cleanup_unconditional
    end1 end2 outprefix outtemp nthreads genomedir w :
  star_nowasp which decode end1 end2 outprefix outtemp nthreads genomedir w =
    match
      star_cleanup outprefix
        (snd (run_command_py which decode
                (star_nowasp_cmd end1 end2 outprefix outtemp nthreads genomedir) w))
    with
    | (Return tt, w2) =>
        (fst (call_run_command which decode
                (star_nowasp_cmd end1 end2 outprefix outtemp nthreads genomedir) w),
         w2)
    | (Raise e, w2) => (Raise e, w2)
    end /\
  forall w1,
    w1 = snd (run_command_py which decode
                (star_nowasp_cmd end1 end2 outprefix outtemp nthreads genomedir) w) ->
    (fs w1 !! STARgenome outprefix = None ->
     star_nowasp which decode end1 end2 outprefix outtemp nthreads genomedir w
     = (Raise (FileNotFoundError (STARgenome outprefix)), w1)) /\
    (fs w1 !! STARgenome outprefix = Some Dir ->
     fs w1 !! STARpass1 outprefix = None ->
     fst (star_nowasp which decode end1 end2 outprefix outtemp nthreads genomedir w)
     = Raise (FileNotFoundError (STARpass1 outprefix))) /\
    (fs w1 !! STARgenome outprefix = Some Dir ->
     fs w1 !! STARpass1 outprefix = Some Dir ->
     let w2 :=
       snd (star_nowasp which decode end1 end2 outprefix outtemp nthreads genomedir w) in
     fs w2 !! STARgenome outprefix = None /\
     fs w2 !! STARpass1 outprefix = None /\
     fst (star_nowasp which decode end1 end2 outprefix outtemp nthreads genomedir w)
     = fst (call_run_command which decode
              (star_nowasp_cmd end1 end2 outprefix outtemp nthreads genomedir) w)).
Proof.
  split; [apply star_nowasp_eq|].
  intros w1 ->. rewrite star_nowasp_eq. repeat split.
  - intros H. rewrite star_cleanup_genome_missing by exact H. reflexivity.
  - intros H1 H2. rewrite star_cleanup_pass1_missing by assumption.
    reflexivity.
  - rewrite star_cleanup_both_present by assumption. simpl.
    rewrite !remove_tree_lookup, beneath_refl.
    destruct (beneath _ _); reflexivity.
  - rewrite star_cleanup_both_present by assumption. simpl.
    rewrite remove_tree_lookup, beneath_refl. reflexivity.
  - rewrite star_cleanup_both_present by assumption. reflexivity.
Qed.

(** C6, as the code has it.  When the cleanup of [star_nowasp] reaches a
    working directory that does not exist, the wrapper is left by the
    [FileNotFoundError] of that directory: the removal is not guarded
    and its failure goes to the caller, whatever the primary invocation
    did. *)
Theorem star_nowasp_missing_directory_raises
    end1 end2 outprefix outtemp nthreads genomedir w d :
  missing_at_cleanup outprefix
    (fs (snd (run_command_py which decode
                (star_nowasp_cmd end1 end2 outprefix outtemp nthreads genomedir) w)))
  = Some d ->
  fst (star_nowasp which decode end1 end2 outprefix outtemp nthreads genomedir w)
  = Raise (FileNotFoundError d) /\
  (d = STARgenome outprefix \/ d = STARpass1 outprefix).
Proof.
  intros H. rewrite star_nowasp_eq.
  pose proof (star_cleanup_missing _ _ _ H) as Hc.
  split.
  - destruct (star_cleanup outprefix _) as [[[]|e] w2]; simpl in *;
      [discriminate | exact Hc].
  - unfold missing_at_cleanup in H.
    destruct (fs _ !! STARgenome outprefix) as [[| |]|]; try discriminate.
    + destruct (fs _ !! STARpass1 outprefix); [discriminate|].
      injection H as <-. right; reflexivity.
    + injection H as <-. left; reflexivity.
Qed.

(** *** Two runs *)



End Runner.

(** *** The token list *)


(** ** The properties at work on the sample system *)

(** The one-pass translation agrees with the two replacements done one
    after the other. *)
Example translate_newlines_mixed :
  translate_newlines
    ("a" +:+ String CR (String LF ("b" +:+ String CR (String CR (String LF "c")))))
  = "a" +:+ String LF ("b" +:+ String LF (String LF "c")).
Proof. reflexivity. Qed.

(** In a UTF-8 locale the byte 255 is no text, "é" (195, 169) is. *)
Example utf8_samples :
  Sample.decode (String (ascii_of_nat 255) "") = None /\
  Sample.decode (String (ascii_of_nat 195) (String (ascii_of_nat 169) ""))
  = Some (String (ascii_of_nat 195) (String (ascii_of_nat 169) "")).
Proof. split; reflexivity. Qed.

Example echo_run :
  fst (run_command Sample.which Sample.decode ["echo"; "hello"; "world"]
         Sample.empty_world)
  = Return (Some (None, Some ("hello world" +:+ Sample.nl), 0)).
Proof. reflexivity. Qed.

(** A token with a space in it stays one token. *)
Example spaced_token_kept :
  launches (snd (run_command Sample.which Sample.decode ["echo"; "a b"]
                   Sample.empty_world))
  = [["echo"; "a b"]].
Proof. reflexivity. Qed.

(** The exit status of [stamp] follows the clock: not every tool is
    deterministic. *)
Example stamp_not_deterministic : ~ deterministic Sample.which ["stamp"].
Proof.
  intros H.
  specialize (H "stamp" [] Sample.stamp ∅ 0 1 eq_refl eq_refl).
  discriminate H.
Qed.

(** C1, as the claim has it, fails.  [garble] exits with status 0 after
    writing the byte 255.  The pipe is read in text mode, the byte is not
    valid in the UTF-8 locale, and [run_command] is left by
    [UnicodeDecodeError] instead of returning a triple. *)
Lemma run_command_exit_zero_undecodable :
  child_exit Sample.which ["garble"] Sample.empty_world = Some 0 /\
  fst (run_command Sample.which Sample.decode ["garble"] Sample.empty_world)
  = Raise UnicodeDecodeError /\
  ~ exists err out,
      fst (run_command Sample.which Sample.decode ["garble"] Sample.empty_world)
      = Return (Some (err, out, 0)).
Proof.
  split; [reflexivity|]. split; [reflexivity|].
  intros (err & out & H). vm_compute in H. discriminate H.
Qed.

Lemma run_command_exit_code_zero_witness :
  child_exit Sample.which ["echo"; "hello"] Sample.empty_world = Some 0 /\
  child_text Sample.which Sample.decode ["echo"; "hello"] Sample.empty_world
  = Some ("hello" +:+ Sample.nl) /\
  exists err out,
    fst (run_command Sample.which Sample.decode ["echo"; "hello"] Sample.empty_world)
    = Return (Some (err, out, 0)).
Proof.
  split; [reflexivity|]. split; [reflexivity|].
  apply (run_command_exit_code_zero Sample.which Sample.decode
           ["echo"; "hello"] Sample.empty_world ("hello" +:+ Sample.nl));
    reflexivity.
Defined.

(** C2, as the claim has it, fails.  [garble x] exits with status 3
    after writing the byte 255: [run_command] is left by
    [UnicodeDecodeError], and the only record in the log is the
    announcement, no warning. *)
Lemma run_command_nonzero_exit_undecodable :
  child_exit Sample.which ["garble"; "x"] Sample.empty_world = Some 3 /\
  3 <> 0 /\
  fst (run_command Sample.which Sample.decode ["garble"; "x"] Sample.empty_world)
  = Raise UnicodeDecodeError /\
  logs (snd (run_command Sample.which Sample.decode ["garble"; "x"]
               Sample.empty_world))
  = [LogRecord INFO "running command: garble x "].
Proof. repeat split; try reflexivity. lia. Qed.

Lemma run_command_nonzero_exit_witness :
  child_exit Sample.which ["complain"] Sample.empty_world = Some 2 /\
  2 <> 0 /\
  child_text Sample.which Sample.decode ["complain"] Sample.empty_world
  = Some "begin;oops;end" /\
  fst (run_command Sample.which Sample.decode ["complain"] Sample.empty_world)
  = Return None /\
  exists earlier,
    logs (snd (run_command Sample.which Sample.decode ["complain"]
                 Sample.empty_world))
    = ((logs Sample.empty_world ++ earlier) ++ [LogRecord WARNING
         ("non-zero return code for cmd " +:+ join " " ["complain"])])%list.
Proof.
  split; [reflexivity|]. split; [lia|]. split; [reflexivity|].
  apply (run_command_nonzero_exit Sample.which Sample.decode ["complain"]
           Sample.empty_world 2 "begin;oops;end").
  - reflexivity.
  - lia.
  - reflexivity.
Defined.

Lemma run_command_launch_failure_witness :
  unresolved Sample.which ["samtools"; "index"; "x.bam"] Sample.empty_world = true /\
  exists prog e,
    hd_error ["samtools"; "index"; "x.bam"] = Some prog /\
    (e = FileNotFoundError prog \/ e = PermissionError prog) /\
    is_OSError e = true /\
    fst (run_command Sample.which Sample.decode ["samtools"; "index"; "x.bam"]
           Sample.empty_world)
    = Raise e /\
    forall v,
      fst (run_command Sample.which Sample.decode ["samtools"; "index"; "x.bam"]
             Sample.empty_world)
      <> Return v.
Proof.
  split; [reflexivity|].
  apply (run_command_launch_failure Sample.which Sample.decode
           ["samtools"; "index"; "x.bam"] Sample.empty_world).
  reflexivity.
Defined.

Lemma star_nowasp_cleanup_unconditional_witness :
  fs (snd (run_command_py Sample.which Sample.decode
             (star_nowasp_cmd "r1.fq" "r2.fq" "out" "tmp" "4" "/ref")
             Sample.star_world)) !! STARgenome "out" = None /\
  star_nowasp Sample.which Sample.decode "r1.fq" "r2.fq" "out" "tmp" "4" "/ref"
    Sample.star_world
  = (Raise (FileNotFoundError (STARgenome "out")),
     snd (run_command_py Sample.which Sample.decode
            (star_nowasp_cmd "r1.fq" "r2.fq" "out" "tmp" "4" "/ref")
            Sample.star_world)).
Proof.
  split; [vm_compute; reflexivity|].
  apply (proj2 (star_nowasp_cleanup_unconditional Sample.which Sample.decode
                  "r1.fq" "r2.fq" "out" "tmp" "4" "/ref" Sample.star_world)
           _ eq_refl).
  vm_compute; reflexivity.
Defined.

(** C6, as the claim has it, fails.  The aligner is installed but finds
    no genome: it exits with status 102 and leaves no working directory.
    [run_command] returns [None] without an exception; the [finally]
    block then asks for the removal of [out_STARgenome], which is not
    there, and the wrapper is left by the [FileNotFoundError] of
    [shutil.rmtree]. *)
Lemma star_nowasp_cleanup_crash :
  fst (run_command_py Sample.which Sample.decode
         (star_nowasp_cmd "r1.fq" "r2.fq" "out" "tmp" "4" "/ref")
         Sample.star_world) = Return None /\
  fs (snd (run_command_py Sample.which Sample.decode
             (star_nowasp_cmd "r1.fq" "r2.fq" "out" "tmp" "4" "/ref")
             Sample.star_world)) !! "out_STARgenome" = None /\
  fst (star_nowasp Sample.which Sample.decode "r1.fq" "r2.fq" "out" "tmp" "4" "/ref"
         Sample.star_world)
  = Raise (FileNotFoundError "out_STARgenome") /\
  ~ exists done,
      fst (star_nowasp Sample.which Sample.decode "r1.fq" "r2.fq" "out" "tmp" "4"
             "/ref" Sample.star_world) = Return done.
Proof.
  repeat split; try (vm_compute; reflexivity).
  intros [done H]. vm_compute in H. discriminate H.
Qed.

Lemma star_nowasp_missing_directory_raises_witness :
  missing_at_cleanup "out"
    (fs (snd (run_command_py Sample.which Sample.decode
                (star_nowasp_cmd "r1.fq" "r2.fq" "out" "tmp" "4" "/ref")
                Sample.star_world)))
  = Some "out_STARgenome" /\
  fst (star_nowasp Sample.which Sample.decode "r1.fq" "r2.fq" "out" "tmp" "4" "/ref"
         Sample.star_world)
  = Raise (FileNotFoundError "out_STARgenome") /\
  ("out_STARgenome" = STARgenome "out" \/ "out_STARgenome" = STARpass1 "out").
Proof.
  split; [vm_compute; reflexivity|].
  apply (star_nowasp_missing_directory_raises Sample.which Sample.decode
           "r1.fq" "r2.fq" "out" "tmp" "4" "/ref" Sample.star_world
           "out_STARgenome").
  vm_compute; reflexivity.
Defined.


(** C8, as the claim has it, fails.  [spinner] prints [working], a
    carriage return and [done], and exits with status 0.  The text mode
    of the pipe turns the carriage return into a line feed, so the output
    in the triple is not the text that was printed. *)
Lemma run_command_output_differs_from_printed :
  child_writes Sample.which ["spinner"] Sample.empty_world
  = Some [(Stdout, "working" +:+ String CR "done")] /\
  child_exit Sample.which ["spinner"] Sample.empty_world = Some 0 /\
  fst (run_command Sample.which Sample.decode ["spinner"] Sample.empty_world)
  = Return (Some (None, Some ("working" +:+ String LF "done"), 0)) /\
  fst (run_command Sample.which Sample.decode ["spinner"] Sample.empty_world)
  <> Return (Some (None,
                   Some (printed [(Stdout, "working" +:+ String CR "done")]), 0)).
Proof.
  repeat split; try reflexivity.
  intros H. vm_compute in H. discriminate H.
Qed.

Lemma run_command_captures_printed_text_witness :
  child_writes Sample.which ["chatty"] Sample.empty_world
  = Some [(Stderr, "warming up;"); (Stdout, "done")] /\
  child_exit Sample.which ["chatty"] Sample.empty_world = Some 0 /\
  Sample.decode (printed [(Stderr, "warming up;"); (Stdout, "done")])
  = Some "warming up;done" /\
  has_CR "warming up;done" = false /\
  fst (run_command Sample.which Sample.decode ["chatty"] Sample.empty_world)
  = Return (Some (None, Some "warming up;done", 0)).
Proof.
  split; [reflexivity|]. split; [reflexivity|]. split; [reflexivity|].
  split; [reflexivity|].
  apply (proj2 (run_command_captures_printed_text Sample.which Sample.decode
                  ["chatty"] Sample.empty_world
                  [(Stderr, "warming up;"); (Stdout, "done")] "warming up;done"
                  eq_refl eq_refl eq_refl)).
  reflexivity.
Defined.


Lemma run_command_stderr_is_None_witness :
  fst (run_command Sample.which Sample.decode ["chatty"] Sample.empty_world)
  = Return (Some (None, Some "warming up;done", 0)) /\
  @None string = None.
Proof.
  split; [reflexivity|].
  apply (run_command_stderr_is_None Sample.which Sample.decode ["chatty"]
           Sample.empty_world None (Some "warming up;done") 0).
  reflexivity.
Defined.


(** * Further properties of the runner *)

Section Outcomes.

Variable which : string -> FS -> resolution.
Variable decode : string -> option string.

Lemma child_exit_of_spawn cmd w r :
  spawn which cmd (fs w) (clock w) = Return r ->
  child_exit which cmd w = Some (cr_returncode r).
Proof. intros H. unfold child_exit. rewrite H. reflexivity. Qed.

Lemma child_exit_of_failed_spawn cmd w e :
  spawn which cmd (fs w) (clock w) = Raise e ->
  child_exit which cmd w = None.
Proof. intros H. unfold child_exit. rewrite H. reflexivity. Qed.

(** X1.  [run_command] reports success only for a success: whenever it
    returns a triple, the child was launched and exited with status 0,
    and the code in the triple is 0. *)
Theorem run_command_triple_only_on_zero cmd w err out code :
  fst (run_command which decode cmd w) = Return (Some (err, out, code)) ->
  code = 0 /\ child_exit which cmd w = Some 0.
Proof.
  destruct (run_command_cases which decode cmd w)
    as [(e & _ & ->) | [(r & _ & _ & ->)
        | [(r & t & Hs & _ & H0 & ->) | (r & t & _ & _ & _ & ->)]]]; simpl;
    try discriminate.
  intros [= _ _ <-]. split; [exact H0|].
  rewrite (child_exit_of_spawn _ _ _ Hs), H0. reflexivity.
Qed.

(** X2.  [run_command] returns [None] exactly when the child was
    launched, exited with a status other than 0 (negative statuses, of a
    child ended by a signal, included) and wrote text that is valid in
    the locale's encoding. *)
Theorem run_command_None_iff cmd w :
  fst (run_command which decode cmd w) = Return None <->
  exists c text,
    child_exit which cmd w = Some c /\ c <> 0 /\
    child_text which decode cmd w = Some text.
Proof.
  split.
  - destruct (run_command_cases which decode cmd w)
      as [(e & _ & ->) | [(r & _ & _ & ->)
          | [(r & t & _ & _ & _ & ->) | (r & t & Hs & Ht & H0 & ->)]]]; simpl;
      try discriminate.
    intros _. exists (cr_returncode r), t.
    rewrite (child_text_spawn _ decode _ _ _ Hs).
    split; [exact (child_exit_of_spawn _ _ _ Hs) | split; assumption].
  - intros (c & text & Hc & Hne & Ht).
    apply child_exit_spawn in Hc as (r & Hs & <-).
    rewrite (child_text_spawn _ decode _ _ _ Hs) in Ht.
    rewrite (run_command_exit_nonzero _ _ _ _ _ _ Hs Ht Hne). reflexivity.
Qed.

(** X3.  [run_command] is left by an exception in two cases only: the
    launch fails, and the exception is the one of the launch, unchanged;
    or the child ran and what it wrote is not valid in the locale's
    encoding, and the exception is [UnicodeDecodeError].  Nothing is
    caught, wrapped or replaced on the way. *)
Theorem run_command_raises_iff cmd w e :
  fst (run_command which decode cmd w) = Raise e <->
  spawn which cmd (fs w) (clock w) = Raise e \/
  (e = UnicodeDecodeError /\
   exists r, spawn which cmd (fs w) (clock w) = Return r /\
             decode (printed (cr_writes r)) = None).
Proof.
  split.
  - destruct (run_command_cases which decode cmd w)
      as [(e' & Hs & ->) | [(r & Hs & Ht & ->)
          | [(r & t & _ & _ & _ & ->) | (r & t & _ & _ & _ & ->)]]]; simpl;
      try discriminate.
    + intros [= <-]. left. exact Hs.
    + intros [= <-]. right. split; [reflexivity|]. exists r. split; assumption.
  - intros [Hs | (-> & r & Hs & Ht)].
    + rewrite (run_command_launch_failed _ _ _ _ _ Hs). reflexivity.
    + rewrite (run_command_undecodable _ _ _ _ _ Hs Ht). reflexivity.
Qed.

(** X4.  On the empty argument vector [run_command] logs the
    announcement, with an empty command text, and is then left by
    [IndexError]: no child runs, and filesystem and clock stay as they
    were. *)
Theorem run_command_empty_vector w :
  run_command which decode [] w
  = (Raise IndexError,
     mkWorld (fs w) (clock w)
       (logs w ++ [LogRecord INFO "running command:  "])
       (launches w ++ [[]])).
Proof.
  rewrite (run_command_launch_failed which decode [] w IndexError)
    by reflexivity.
  reflexivity.
Qed.

Lemma skipn_length_app {A} (l m : list A) : skipn (length l) (l ++ m) = m.
Proof. rewrite skipn_app, skipn_all, Nat.sub_diag. reflexivity. Qed.

Lemma run_records_failed_launch cmd w e :
  spawn which cmd (fs w) (clock w) = Raise e ->
  run_records which decode cmd w = [announcement cmd].
Proof.
  intros Hs. unfold run_records.
  rewrite (run_command_launch_failed _ _ _ _ _ Hs). simpl.
  apply skipn_length_app.
Qed.

Lemma run_records_undecodable cmd w r :
  spawn which cmd (fs w) (clock w) = Return r ->
  decode (printed (cr_writes r)) = None ->
  run_records which decode cmd w = [announcement cmd].
Proof.
  intros Hs Ht. unfold run_records.
  rewrite (run_command_undecodable _ _ _ _ _ Hs Ht). simpl.
  apply skipn_length_app.
Qed.

(** X5.  A failed launch leaves one trace in the log, the announcement:
    [run_command] writes no warning and no error for it, and filesystem
    and clock are untouched. *)
Theorem run_command_failed_launch_trace cmd w e :
  spawn which cmd (fs w) (clock w) = Raise e ->
  run_records which decode cmd w = [announcement cmd] /\
  fs (snd (run_command which decode cmd w)) = fs w /\
  clock (snd (run_command which decode cmd w)) = clock w.
Proof.
  intros Hs. split.
  - exact (run_records_failed_launch cmd w e Hs).
  - rewrite (run_command_launch_failed _ _ _ _ _ Hs). split; reflexivity.
Qed.

Lemma logs_add_log rec w : logs (add_log rec w) = (logs w ++ [rec])%list.
Proof. reflexivity. Qed.

Lemma exited_logs cmd r out w :
  logs (exited cmd r out w)
  = (logs w ++ [announcement cmd; ran_record cmd r; stdout_record out])%list.
Proof.
  unfold exited, launched, started, ran_record. simpl.
  replace (clock w + cr_elapsed r - clock w) with (cr_elapsed r) by lia.
  rewrite <- !app_assoc. reflexivity.
Qed.

Lemma run_records_completed cmd w r text :
  spawn which cmd (fs w) (clock w) = Return r ->
  decode (printed (cr_writes r)) = Some text ->
  run_records which decode cmd w =
    [announcement cmd; ran_record cmd r; stdout_record (translate_newlines text);
     if cr_returncode r =? 0 then success_record cmd else warning_record cmd].
Proof.
  intros Hs Ht. unfold run_records.
  destruct (Z.eqb_spec (cr_returncode r) 0) as [H0|H0].
  - rewrite (run_command_exit_zero _ _ _ _ _ _ Hs Ht H0). cbn [snd].
    rewrite logs_add_log, exited_logs, <- app_assoc. apply skipn_length_app.
  - rewrite (run_command_exit_nonzero _ _ _ _ _ _ Hs Ht H0). cbn [snd].
    rewrite logs_add_log, exited_logs, <- app_assoc. apply skipn_length_app.
Qed.

(** X6.  After a run whose child was launched, the filesystem is the one
    the child left and the clock has advanced by the child's running
    time: [run_command] changes neither on its own.  When what the child
    wrote decodes, the run adds exactly four records, in this order: the
    announcement, the diagnostic line with exit status and seconds, the
    captured output, and either the success record (status 0) or the
    warning (any other status); the captured output is logged whether
    the child succeeded or not.  When it does not decode, the
    announcement is the only record. *)
Theorem run_command_completed_effects cmd w r :
  spawn which cmd (fs w) (clock w) = Return r ->
  fs (snd (run_command which decode cmd w)) = cr_fs r /\
  clock (snd (run_command which decode cmd w)) = clock w + cr_elapsed r /\
  (forall text,
     decode (printed (cr_writes r)) = Some text ->
     run_records which decode cmd w =
       [announcement cmd; ran_record cmd r;
        stdout_record (translate_newlines text);
        if cr_returncode r =? 0 then success_record cmd
        else warning_record cmd]) /\
  (decode (printed (cr_writes r)) = None ->
   run_records which decode cmd w = [announcement cmd]).
Proof.
  intros Hs.
  assert (W : fs (snd (run_command which decode cmd w)) = cr_fs r /\
              clock (snd (run_command which decode cmd w))
              = clock w + cr_elapsed r).
  { destruct (decode (printed (cr_writes r))) as [text|] eqn:Ht.
    - destruct (Z.eq_dec (cr_returncode r) 0) as [H0|H0].
      + rewrite (run_command_exit_zero _ _ _ _ _ _ Hs Ht H0).
        split; reflexivity.
      + rewrite (run_command_exit_nonzero _ _ _ _ _ _ Hs Ht H0).
        split; reflexivity.
    - rewrite (run_command_undecodable _ _ _ _ _ Hs Ht). split; reflexivity. }
  destruct W as [Wf Wc]. repeat split; try assumption.
  - intros text Ht. exact (run_records_completed _ _ _ _ Hs Ht).
  - intros Ht. exact (run_records_undecodable _ _ _ Hs Ht).
Qed.

(** X7.  No run ever logs a [got stderr:] record: the error stream is
    never captured on its own, so the branch that would log it is dead,
    for every command and every outcome. *)
Theorem run_command_never_logs_stderr cmd w :
  Forall (fun rec => String.prefix "got stderr: " (lr_msg rec) = false)
    (run_records which decode cmd w).
Proof.
  destruct (spawn which cmd (fs w) (clock w)) as [r|e] eqn:Hs.
  - destruct (decode (printed (cr_writes r))) as [text|] eqn:Ht.
    + rewrite (run_records_completed _ _ _ _ Hs Ht).
      repeat constructor.
      destruct (cr_returncode r =? 0); reflexivity.
    + rewrite (run_records_undecodable _ _ _ Hs Ht). repeat constructor.
  - rewrite (run_records_failed_launch _ _ _ Hs). repeat constructor.
Qed.

End Outcomes.

(** ** The seconds in the diagnostic line *)

Lemma timedelta_seconds_range (us : Z) : 0 <= timedelta_seconds us < 86400.
Proof.
  unfold timedelta_seconds.
  pose proof (Z.mod_pos_bound us 86400000000 ltac:(lia)) as Hm.
  split.
  - apply Z.div_pos; lia.
  - apply Z.div_lt_upper_bound; lia.
Qed.

(** X8.  The diagnostic line of a completed run carries the [seconds]
    field of the elapsed time, computed from the child's running time
    alone, and that number always lies between 0 and 86399, however long
    the child ran and even if the wall clock was set back meanwhile. *)
Theorem run_command_logged_seconds which decode cmd w r text :
  spawn which cmd (fs w) (clock w) = Return r ->
  decode (printed (cr_writes r)) = Some text ->
  nth_error (run_records which decode cmd w) 1
  = Some (LogRecord DEBUG
            ("ran cmd='" +:+ join " " cmd +:+ "' return="
             +:+ str_int (cr_returncode r) +:+ " "
             +:+ str_int (timedelta_seconds (cr_elapsed r)) +:+ " seconds.")) /\
  0 <= timedelta_seconds (cr_elapsed r) < 86400.
Proof.
  intros Hs Ht. rewrite (run_records_completed _ _ _ _ _ _ Hs Ht).
  split; [reflexivity | apply timedelta_seconds_range].
Qed.

(** X9.  The diagnostic line drops whole days: a completed run whose
    child took [days] days and [us] microseconds more, with [us] less
    than a day, is logged with the whole seconds of [us] alone, so a run
    of 25 hours is logged with 3600 seconds. *)
Theorem run_command_logged_seconds_drop_days which decode cmd w r text us days :
  spawn which cmd (fs w) (clock w) = Return r ->
  decode (printed (cr_writes r)) = Some text ->
  cr_elapsed r = us + days * 86400000000 ->
  0 <= us < 86400000000 ->
  nth_error (run_records which decode cmd w) 1
  = Some (LogRecord DEBUG
            ("ran cmd='" +:+ join " " cmd +:+ "' return="
             +:+ str_int (cr_returncode r) +:+ " "
             +:+ str_int (us / 1000000) +:+ " seconds.")).
Proof.
  intros Hs Ht He Hus. rewrite (run_records_completed _ _ _ _ _ _ Hs Ht).
  unfold ran_record, timedelta_seconds. rewrite He.
  rewrite Z.mod_add by lia. rewrite Z.mod_small by lia. reflexivity.
Qed.

(** * Further properties of the wrappers *)

Section Wrappers.

Variable which : string -> FS -> resolution.
Variable decode : string -> option string.

Lemma invoke_plain c w :
  is_star c = false ->
  invoke which decode c w = call_run_command which decode (command_of c) w.
Proof.
  destruct c; try discriminate; intros _; apply try_except_call.
Qed.

Lemma run_command_launches cmd w :
  launches (snd (run_command which decode cmd w)) = (launches w ++ [cmd])%list.
Proof.
  destruct (run_command_cases which decode cmd w)
    as [(e & _ & ->) | [(r & _ & _ & ->)
        | [(r & t & _ & _ & _ & ->) | (r & t & _ & _ & _ & ->)]]];
    reflexivity.
Qed.

Lemma shutil_rmtree_launches path w :
  launches (snd (shutil_rmtree path w)) = launches w.
Proof.
  unfold shutil_rmtree. destruct (fs w !! path) as [[| |]|]; reflexivity.
Qed.

Lemma star_cleanup_launches outprefix w :
  launches (snd (star_cleanup outprefix w)) = launches w.
Proof.
  unfold star_cleanup, mbind, Py_bind.
  pose proof (shutil_rmtree_launches (STARgenome outprefix) w) as H1.
  destruct (shutil_rmtree (STARgenome outprefix) w) as [[[]|e] w1];
    simpl in *; [|exact H1].
  rewrite shutil_rmtree_launches. exact H1.
Qed.

Lemma star_nowasp_world end1 end2 outprefix outtemp nthreads genomedir w :
  snd (star_nowasp which decode end1 end2 outprefix outtemp nthreads genomedir w)
  = snd (star_cleanup outprefix
           (snd (run_command_py which decode
                   (star_nowasp_cmd end1 end2 outprefix outtemp nthreads genomedir)
                   w))).
Proof.
  rewrite star_nowasp_eq.
  destruct (star_cleanup outprefix _) as [[[]|e] w2]; reflexivity.
Qed.

Lemma invoke_world c w :
  launches (snd (invoke which decode c w))
  = launches (snd (run_command_py which decode (command_of c) w)) /\
  logs (snd (invoke which decode c w))
  = logs (snd (run_command_py which decode (command_of c) w)).
Proof.
  destruct (is_star c) eqn:Hc.
  - destruct c; try discriminate. simpl.
    rewrite star_nowasp_world, star_cleanup_launches, star_cleanup_logs.
    split; reflexivity.
  - rewrite (invoke_plain c w Hc), call_run_command_eq. split; reflexivity.
Qed.

(** X10.  A wrapper called with text where its tokens go makes exactly
    one launch, with the argument vector it builds: there is no retry, no
    second process, and the cleanup of [star_nowasp] starts none.  Called
    with a number where a token goes untouched into the vector (the
    thread count of [fasterq_dump] and [star_nowasp], the quality of
    [samtools_view_quality]), it launches nothing and logs nothing, and
    the nine wrappers without cleanup are left by the [TypeError] of the
    join.  [gatk_sv] is a stub: it launches nothing and changes
    nothing. *)
Theorem wrappers_launch_once :
  (forall c w,
     non_str_index (command_of c) = None ->
     launches (snd (invoke which decode c w))
     = (launches w ++ [texts (command_of c)])%list) /\
  (forall c w i,
     non_str_index (command_of c) = Some i ->
     launches (snd (invoke which decode c w)) = launches w /\
     logs (snd (invoke which decode c w)) = logs w /\
     (is_star c = false ->
      invoke which decode c w
      = (Raise (TypeError ("sequence item " +:+ str_int i
                           +:+ ": expected str instance, int found")), w))) /\
  (forall infile outfile genome interval w,
     gatk_sv infile outfile genome interval w = (Return tt, w)).
Proof.
  split; [|split]; [| |reflexivity].
  - intros c w H. destruct (invoke_world c w) as [-> _].
    rewrite (run_command_py_well_typed _ _ _ _ H).
    apply run_command_launches.
  - intros c w i H. destruct (invoke_world c w) as [-> ->].
    rewrite (run_command_py_ill_typed _ _ _ _ _ H).
    repeat split.
    intros Hc. rewrite (invoke_plain c w Hc), call_run_command_eq.
    rewrite (run_command_py_ill_typed _ _ _ _ _ H). reflexivity.
Qed.

(** X11.  The nine wrappers without cleanup return normally whenever the
    tool could be launched and wrote valid text, whatever status it
    exited with: the caller cannot tell a failed tool from a successful
    one. *)
Theorem plain_wrapper_hides_exit_status c w code text :
  is_star c = false ->
  non_str_index (command_of c) = None ->
  child_exit which (texts (command_of c)) w = Some code ->
  child_text which decode (texts (command_of c)) w = Some text ->
  fst (invoke which decode c w) = Return tt.
Proof.
  intros Hc Hty H Ht.
  rewrite (invoke_plain c w Hc), call_run_command_eq. simpl.
  rewrite (run_command_py_well_typed _ _ _ _ Hty).
  apply child_exit_spawn in H as (r & Hs & _).
  rewrite (child_text_spawn _ decode _ _ _ Hs) in Ht.
  destruct (Z.eq_dec (cr_returncode r) 0) as [H0|H0].
  - rewrite (run_command_exit_zero _ _ _ _ _ _ Hs Ht H0). reflexivity.
  - rewrite (run_command_exit_nonzero _ _ _ _ _ _ Hs Ht H0). reflexivity.
Qed.

(** X12.  The nine wrappers without cleanup do not absorb a failed
    launch: the exception of the launch leaves the wrapper as it left
    [run_command], and the log holds the announcement only, no error
    record. *)
Theorem plain_wrapper_propagates_launch_failure c w e :
  is_star c = false ->
  non_str_index (command_of c) = None ->
  spawn which (texts (command_of c)) (fs w) (clock w) = Raise e ->
  invoke which decode c w = (Raise e, started (texts (command_of c)) w).
Proof.
  intros Hc Hty Hs. rewrite (invoke_plain c w Hc), call_run_command_eq.
  rewrite (run_command_py_well_typed _ _ _ _ Hty).
  rewrite (run_command_launch_failed _ _ _ _ _ Hs). reflexivity.
Qed.

(** X13.  When the aligner cannot be launched but both working
    directories exist, left by an earlier run, [star_nowasp] removes
    them all the same and then raises the exception of the launch. *)
Theorem star_nowasp_failed_launch_still_cleans
    end1 end2 outprefix outtemp nthreads genomedir w e :
  non_str_index
    (star_nowasp_cmd end1 end2 outprefix outtemp nthreads genomedir) = None ->
  spawn which
    (texts (star_nowasp_cmd end1 end2 outprefix outtemp nthreads genomedir))
    (fs w) (clock w) = Raise e ->
  fs w !! STARgenome outprefix = Some Dir ->
  fs w !! STARpass1 outprefix = Some Dir ->
  star_nowasp which decode end1 end2 outprefix outtemp nthreads genomedir w
  = (Raise e,
     set_fs (remove_tree (STARpass1 outprefix)
               (remove_tree (STARgenome outprefix) (fs w)))
       (started
          (texts (star_nowasp_cmd end1 end2 outprefix outtemp nthreads genomedir))
          w)).
Proof.
  intros Hty Hs H1 H2. rewrite star_nowasp_eq, call_run_command_eq.
  rewrite (run_command_py_well_typed _ _ _ _ Hty).
  rewrite (run_command_launch_failed _ _ _ _ _ Hs). cbn [fst snd].
  rewrite star_cleanup_both_present by assumption. reflexivity.
Qed.

Lemma star_cleanup_frame outprefix w k :
  beneath (STARgenome outprefix) k = false ->
  beneath (STARpass1 outprefix) k = false ->
  fs (snd (star_cleanup outprefix w)) !! k = fs w !! k.
Proof.
  intros Hg Hp. unfold star_cleanup, mbind, Py_bind, shutil_rmtree.
  destruct (fs w !! STARgenome outprefix) as [[| |]|]; try reflexivity.
  simpl. rewrite remove_tree_lookup, pass1_not_beneath_genome.
  destruct (fs w !! STARpass1 outprefix) as [[| |]|]; simpl;
    rewrite ?remove_tree_lookup, ?Hp, ?Hg; reflexivity.
Qed.

(** X14.  The cleanup of [star_nowasp] touches the two working trees only:
    every path that lies in neither of them is, after the wrapper, what
    the aligner's run left it, whether the wrapper returns or raises. *)
Theorem star_nowasp_cleanup_frame
    end1 end2 outprefix outtemp nthreads genomedir w k :
  beneath (STARgenome outprefix) k = false ->
  beneath (STARpass1 outprefix) k = false ->
  fs (snd (star_nowasp which decode end1 end2 outprefix outtemp nthreads
             genomedir w)) !! k
  = fs (snd (run_command_py which decode
               (star_nowasp_cmd end1 end2 outprefix outtemp nthreads genomedir)
               w)) !! k.
Proof.
  intros Hg Hp. rewrite star_nowasp_world.
  apply star_cleanup_frame; assumption.
Qed.

Lemma star_cleanup_returns outprefix w w' :
  star_cleanup outprefix w = (Return tt, w') ->
  fs w' = remove_tree (STARpass1 outprefix)
            (remove_tree (STARgenome outprefix) (fs w)).
Proof.
  unfold star_cleanup, mbind, Py_bind, shutil_rmtree.
  destruct (fs w !! STARgenome outprefix) as [[| |]|]; try discriminate.
  simpl.
  destruct (remove_tree (STARgenome outprefix) (fs w) !! STARpass1 outprefix)
    as [[| |]|]; try discriminate.
  intros [= <-]. reflexivity.
Qed.

(** X15.  When [star_nowasp] returns normally, nothing is left of the two
    working trees: every path in or beneath either directory is absent
    afterwards. *)
Theorem star_nowasp_return_leaves_no_tree
    end1 end2 outprefix outtemp nthreads genomedir w k :
  fst (star_nowasp which decode end1 end2 outprefix outtemp nthreads genomedir w)
  = Return tt ->
  beneath (STARgenome outprefix) k || beneath (STARpass1 outprefix) k = true ->
  fs (snd (star_nowasp which decode end1 end2 outprefix outtemp nthreads
             genomedir w)) !! k
  = None.
Proof.
  rewrite star_nowasp_eq.
  destruct (star_cleanup outprefix _) as [[[]|e] w2] eqn:Hc; simpl;
    [|discriminate].
  intros _ Hk. rewrite (star_cleanup_returns _ _ _ Hc).
  rewrite !remove_tree_lookup.
  destruct (beneath (STARpass1 outprefix) k); [reflexivity|].
  destruct (beneath (STARgenome outprefix) k); [reflexivity | discriminate].
Qed.

End Wrappers.

(** * Properties of the logging setup *)

Lemma basicConfig_stdout_handlers lg :
  stdout_handlers (basicConfig lg) = stdout_handlers lg.
Proof.
  unfold basicConfig, stdout_handlers.
  destruct (root_handlers lg) eqn:E; simpl; rewrite ?E; reflexivity.
Qed.

Lemma setup_logging_stdout_handlers level lg :
  stdout_handlers (setup_logging level lg) = S (stdout_handlers lg).
Proof.
  rewrite <- (basicConfig_stdout_handlers lg).
  unfold setup_logging, stdout_handlers, setLevel, addHandler. simpl.
  rewrite List.filter_app, length_app. simpl. lia.
Qed.

Lemma setup_logging_each_stdout levels lg :
  stdout_handlers (setup_logging_each levels lg)
  = (length levels + stdout_handlers lg)%nat.
Proof.
  unfold setup_logging_each. revert lg.
  induction levels as [|l rest IH]; intros lg; simpl.
  - reflexivity.
  - rewrite IH, setup_logging_stdout_handlers. lia.
Qed.

Lemma handle_stdout_lines lg r :
  root_level lg <= levelno (lr_level r) ->
  stdout_lines (handle lg r) = stdout_handlers lg.
Proof.
  intros H. unfold handle, stdout_lines, stdout_handlers.
  destruct (Z.leb_spec (root_level lg) (levelno (lr_level r))); [|lia].
  induction (root_handlers lg) as [|h hs IH]; simpl.
  - reflexivity.
  - destruct (sh_stream h); simpl; rewrite IH; reflexivity.
Qed.

(** X17.  After [setup_logging] on a root logger that had no handler,
    every record at or above the chosen level is written twice: once to
    standard error in the basic format, by the handler [basicConfig]
    installs, and once to standard output in the module's format.  A
    record below the level is written nowhere. *)
Theorem setup_logging_writes_twice (level : Z) (r : log_record) :
  (level <= levelno (lr_level r) ->
   handle (setup_logging level fresh_root) r
   = [(StreamHandler SysStderr BASIC_FORMAT, r);
      (StreamHandler SysStdout FORMAT, r)]) /\
  (levelno (lr_level r) < level ->
   handle (setup_logging level fresh_root) r = []).
Proof.
  unfold handle. simpl. split; intros H.
  - destruct (Z.leb_spec level (levelno (lr_level r))); [reflexivity | lia].
  - destruct (Z.leb_spec level (levelno (lr_level r))); [lia | reflexivity].
Qed.

(** X18.  [setup_logging] is not idempotent: each call adds one more
    handler on standard output and keeps the ones there.  After calls
    with the levels [earlier ++ [level]] on a fresh root logger, a record
    at or above [level], the level of the last call, is written once per
    call to standard output. *)
Theorem setup_logging_repeated (earlier : list Z) (level : Z) (r : log_record) :
  level <= levelno (lr_level r) ->
  stdout_lines (handle (setup_logging_each (earlier ++ [level]) fresh_root) r)
  = S (length earlier).
Proof.
  intros H.
  assert (L : root_level (setup_logging_each (earlier ++ [level]) fresh_root)
              = level).
  { unfold setup_logging_each. rewrite fold_left_app. reflexivity. }
  rewrite handle_stdout_lines by (rewrite L; exact H).
  rewrite setup_logging_each_stdout, length_app. simpl.
  unfold stdout_handlers. simpl. lia.
Qed.

(** X19.  Without [setup_logging], on the root logger of a fresh
    interpreter (level WARNING, no handler), a run of [run_command] is
    silent when the child succeeds, when the launch fails and when the
    child's output does not decode; when the child exits with a non-zero
    status and its output decodes, exactly one line is written, the
    warning, to standard error in the basic format. *)
Theorem run_command_default_logging which decode cmd w :
  snd (logging_calls fresh_root (run_records which decode cmd w))
  = match child_exit which cmd w, child_text which decode cmd w with
    | Some c, Some _ =>
        if c =? 0 then []
        else [(StreamHandler SysStderr BASIC_FORMAT, warning_record cmd)]
    | _, _ => []
    end.
Proof.
  destruct (spawn which cmd (fs w) (clock w)) as [r|e] eqn:Hs.
  - rewrite (child_exit_of_spawn _ _ _ _ Hs),
      (child_text_spawn _ decode _ _ _ Hs).
    destruct (decode (printed (cr_writes r))) as [text|] eqn:Ht.
    + rewrite (run_records_completed _ _ _ _ _ _ Hs Ht).
      destruct (cr_returncode r =? 0); reflexivity.
    + rewrite (run_records_undecodable _ _ _ _ _ Hs Ht). reflexivity.
  - rewrite (child_exit_of_failed_spawn _ _ _ _ Hs).
    rewrite (run_records_failed_launch which decode cmd w e Hs). reflexivity.
Qed.

(** ** The further properties at work on the sample systems *)

Lemma run_command_triple_only_on_zero_witness :
  fst (run_command Sample.which Sample.decode ["echo"; "hello"] Sample.empty_world)
  = Return (Some (None, Some ("hello" +:+ Sample.nl), 0)) /\
  0 = 0 /\
  child_exit Sample.which ["echo"; "hello"] Sample.empty_world = Some 0.
Proof.
  split; [reflexivity|].
  apply (run_command_triple_only_on_zero Sample.which Sample.decode
           ["echo"; "hello"] Sample.empty_world None
           (Some ("hello" +:+ Sample.nl)) 0).
  reflexivity.
Defined.

Lemma run_command_failed_launch_trace_witness :
  spawn Sample.which ["notes.txt"; "-v"]
    (fs Sample.later_world) (clock Sample.later_world)
  = Raise (PermissionError "notes.txt") /\
  run_records Sample.which Sample.decode ["notes.txt"; "-v"] Sample.later_world
  = [announcement ["notes.txt"; "-v"]] /\
  fs (snd (run_command Sample.which Sample.decode ["notes.txt"; "-v"]
             Sample.later_world))
  = fs Sample.later_world /\
  clock (snd (run_command Sample.which Sample.decode ["notes.txt"; "-v"]
                Sample.later_world))
  = clock Sample.later_world.
Proof.
  split; [reflexivity|].
  apply (run_command_failed_launch_trace Sample.which Sample.decode
           ["notes.txt"; "-v"] Sample.later_world (PermissionError "notes.txt")).
  reflexivity.
Defined.

Lemma run_command_completed_effects_witness :
  spawn Sample.which ["complain"]
    (fs Sample.later_world) (clock Sample.later_world)
  = Return (Sample.complain ["complain"] ∅ 86400000777) /\
  Sample.decode (printed (cr_writes (Sample.complain ["complain"] ∅ 86400000777)))
  = Some "begin;oops;end" /\
  fs (snd (run_command Sample.which Sample.decode ["complain"] Sample.later_world))
  = ∅ /\
  clock (snd (run_command Sample.which Sample.decode ["complain"]
                Sample.later_world))
  = 86400000777 + 2000000 /\
  run_records Sample.which Sample.decode ["complain"] Sample.later_world
  = [announcement ["complain"];
     ran_record ["complain"] (Sample.complain ["complain"] ∅ 86400000777);
     stdout_record "begin;oops;end";
     warning_record ["complain"]].
Proof.
  split; [reflexivity|]. split; [reflexivity|].
  destruct (run_command_completed_effects Sample.which Sample.decode
              ["complain"] Sample.later_world
              (Sample.complain ["complain"] ∅ 86400000777) eq_refl)
    as (Hf & Hc & Hr & _).
  split; [exact Hf|]. split; [exact Hc|].
  exact (Hr "begin;oops;end" eq_refl).
Defined.

(** The same on a child whose output does not decode: one record. *)
Example garble_leaves_one_record :
  run_records Sample.which Sample.decode ["garble"; "x"] Sample.empty_world
  = [announcement ["garble"; "x"]].
Proof. reflexivity. Qed.

Lemma run_command_logged_seconds_witness :
  spawn Sample.which ["chatty"]
    (fs Sample.empty_world) (clock Sample.empty_world)
  = Return (Sample.chatty ["chatty"] ∅ 0) /\
  Sample.decode (printed (cr_writes (Sample.chatty ["chatty"] ∅ 0)))
  = Some "warming up;done" /\
  nth_error (run_records Sample.which Sample.decode ["chatty"] Sample.empty_world) 1
  = Some (LogRecord DEBUG "ran cmd='chatty' return=0 3 seconds.") /\
  0 <= 3 < 86400.
Proof.
  split; [reflexivity|]. split; [reflexivity|].
  apply (run_command_logged_seconds Sample.which Sample.decode ["chatty"]
           Sample.empty_world (Sample.chatty ["chatty"] ∅ 0) "warming up;done");
    reflexivity.
Defined.

(** A run of 25 hours is logged with 3600 seconds. *)
Lemma run_command_logged_seconds_drop_days_witness :
  spawn Lab.which ["overnight"]
    (fs Sample.empty_world) (clock Sample.empty_world)
  = Return (Lab.overnight ["overnight"] ∅ 0) /\
  Sample.decode (printed (cr_writes (Lab.overnight ["overnight"] ∅ 0)))
  = Some "done" /\
  cr_elapsed (Lab.overnight ["overnight"] ∅ 0) = 3600000000 + 1 * 86400000000 /\
  0 <= 3600000000 < 86400000000 /\
  nth_error (run_records Lab.which Sample.decode ["overnight"] Sample.empty_world) 1
  = Some (LogRecord DEBUG "ran cmd='overnight' return=0 3600 seconds.").
Proof.
  split; [reflexivity|]. split; [reflexivity|]. split; [reflexivity|].
  split; [lia|].
  apply (run_command_logged_seconds_drop_days Lab.which Sample.decode
           ["overnight"] Sample.empty_world (Lab.overnight ["overnight"] ∅ 0)
           "done" 3600000000 1); try reflexivity.
  lia.
Defined.

Lemma wrappers_launch_once_witness :
  (non_str_index (command_of (Fasterq_dump "SRR1.sra" "fq" "4" "/tmp")) = None /\
   launches (snd (invoke Sample.which Sample.decode
                    (Fasterq_dump "SRR1.sra" "fq" "4" "/tmp") Sample.empty_world))
   = [texts (command_of (Fasterq_dump "SRR1.sra" "fq" "4" "/tmp"))]) /\
  (non_str_index (command_of (Fasterq_dump "SRR1.sra" "fq" (PyInt 4) "/tmp"))
   = Some 5 /\
   invoke Sample.which Sample.decode
     (Fasterq_dump "SRR1.sra" "fq" (PyInt 4) "/tmp") Sample.empty_world
   = (Raise (TypeError "sequence item 5: expected str instance, int found"),
      Sample.empty_world)).
Proof.
  destruct (wrappers_launch_once Sample.which Sample.decode) as (H1 & H2 & _).
  split.
  - split; [reflexivity|].
    apply (H1 (Fasterq_dump "SRR1.sra" "fq" "4" "/tmp") Sample.empty_world).
    reflexivity.
  - split; [reflexivity|].
    apply (H2 (Fasterq_dump "SRR1.sra" "fq" (PyInt 4) "/tmp")
              Sample.empty_world 5 eq_refl).
    reflexivity.
Defined.

Lemma plain_wrapper_hides_exit_status_witness :
  is_star (Samtools_index "missing.bam" (PyInt 4)) = false /\
  non_str_index (command_of (Samtools_index "missing.bam" (PyInt 4))) = None /\
  child_exit Lab.which (texts (command_of (Samtools_index "missing.bam" (PyInt 4))))
    Sample.empty_world = Some 1 /\
  child_text Lab.which Sample.decode
    (texts (command_of (Samtools_index "missing.bam" (PyInt 4))))
    Sample.empty_world = Some "[E::hts_open_format] Failed to open file" /\
  fst (invoke Lab.which Sample.decode (Samtools_index "missing.bam" (PyInt 4))
         Sample.empty_world)
  = Return tt.
Proof.
  split; [reflexivity|]. split; [reflexivity|]. split; [reflexivity|].
  split; [reflexivity|].
  apply (plain_wrapper_hides_exit_status Lab.which Sample.decode
           (Samtools_index "missing.bam" (PyInt 4)) Sample.empty_world 1
           "[E::hts_open_format] Failed to open file");
    reflexivity.
Defined.

Lemma plain_wrapper_propagates_launch_failure_witness :
  is_star (Gatk_md "in.bam" "out.bam" "m.txt") = false /\
  non_str_index (command_of (Gatk_md "in.bam" "out.bam" "m.txt")) = None /\
  spawn Sample.which (texts (command_of (Gatk_md "in.bam" "out.bam" "m.txt")))
    (fs Sample.empty_world) (clock Sample.empty_world)
  = Raise (FileNotFoundError "gatk") /\
  invoke Sample.which Sample.decode (Gatk_md "in.bam" "out.bam" "m.txt")
    Sample.empty_world
  = (Raise (FileNotFoundError "gatk"),
     started (texts (command_of (Gatk_md "in.bam" "out.bam" "m.txt")))
       Sample.empty_world).
Proof.
  split; [reflexivity|]. split; [reflexivity|]. split; [reflexivity|].
  apply (plain_wrapper_propagates_launch_failure Sample.which Sample.decode
           (Gatk_md "in.bam" "out.bam" "m.txt") Sample.empty_world
           (FileNotFoundError "gatk")); reflexivity.
Defined.

Lemma star_nowasp_failed_launch_still_cleans_witness :
  non_str_index (star_nowasp_cmd "r1.fq" "r2.fq" "out" "tmp" "4" "/ref") = None /\
  spawn Sample.which
    (texts (star_nowasp_cmd "r1.fq" "r2.fq" "out" "tmp" "4" "/ref"))
    (fs Lab.leftover_world) (clock Lab.leftover_world)
  = Raise (FileNotFoundError "STAR") /\
  fs Lab.leftover_world !! STARgenome "out" = Some Dir /\
  fs Lab.leftover_world !! STARpass1 "out" = Some Dir /\
  star_nowasp Sample.which Sample.decode "r1.fq" "r2.fq" "out" "tmp" "4" "/ref"
    Lab.leftover_world
  = (Raise (FileNotFoundError "STAR"),
     set_fs (remove_tree (STARpass1 "out")
               (remove_tree (STARgenome "out") (fs Lab.leftover_world)))
       (started (texts (star_nowasp_cmd "r1.fq" "r2.fq" "out" "tmp" "4" "/ref"))
          Lab.leftover_world)).
Proof.
  split; [reflexivity|].
  split; [vm_compute; reflexivity|].
  split; [vm_compute; reflexivity|].
  split; [vm_compute; reflexivity|].
  apply (star_nowasp_failed_launch_still_cleans Sample.which Sample.decode
           "r1.fq" "r2.fq" "out" "tmp" "4" "/ref" Lab.leftover_world
           (FileNotFoundError "STAR")); vm_compute; reflexivity.
Defined.

(** The earlier run's index file went with its directory; the reads
    stayed. *)
Example leftover_world_after_failed_launch :
  map_to_list
    (fs (snd (star_nowasp Sample.which Sample.decode "r1.fq" "r2.fq" "out" "tmp"
                "4" "/ref" Lab.leftover_world)))
  = [("reads.fq", File)].
Proof. vm_compute. reflexivity. Qed.

Lemma star_nowasp_cleanup_frame_witness :
  beneath (STARgenome "out") "/ref" = false /\
  beneath (STARpass1 "out") "/ref" = false /\
  fs (snd (star_nowasp Sample.which Sample.decode "r1.fq" "r2.fq" "out" "tmp" "4"
             "/ref" Sample.genome_world)) !! "/ref"
  = fs (snd (run_command_py Sample.which Sample.decode
               (star_nowasp_cmd "r1.fq" "r2.fq" "out" "tmp" "4" "/ref")
               Sample.genome_world)) !! "/ref".
Proof.
  split; [reflexivity|]. split; [reflexivity|].
  apply (star_nowasp_cleanup_frame Sample.which Sample.decode
           "r1.fq" "r2.fq" "out" "tmp" "4" "/ref" Sample.genome_world "/ref");
    reflexivity.
Defined.

Lemma star_nowasp_return_leaves_no_tree_witness :
  fst (star_nowasp Sample.which Sample.decode "r1.fq" "r2.fq" "out" "tmp" "4" "/ref"
         Sample.genome_world) = Return tt /\
  beneath (STARgenome "out") "out_STARpass1"
    || beneath (STARpass1 "out") "out_STARpass1" = true /\
  fs (snd (star_nowasp Sample.which Sample.decode "r1.fq" "r2.fq" "out" "tmp" "4"
             "/ref" Sample.genome_world)) !! "out_STARpass1" = None.
Proof.
  split; [vm_compute; reflexivity|]. split; [reflexivity|].
  apply (star_nowasp_return_leaves_no_tree Sample.which Sample.decode
           "r1.fq" "r2.fq" "out" "tmp" "4" "/ref" Sample.genome_world
           "out_STARpass1"); vm_compute; reflexivity.
Defined.

Lemma setup_logging_writes_twice_witness :
  20 <= levelno (lr_level (LogRecord WARNING "non-zero return code for cmd false")) /\
  handle (setup_logging 20 fresh_root)
    (LogRecord WARNING "non-zero return code for cmd false")
  = [(StreamHandler SysStderr BASIC_FORMAT,
      LogRecord WARNING "non-zero return code for cmd false");
     (StreamHandler SysStdout FORMAT,
      LogRecord WARNING "non-zero return code for cmd false")].
Proof.
  split; [simpl; lia|].
  apply (proj1 (setup_logging_writes_twice 20
                  (LogRecord WARNING "non-zero return code for cmd false"))).
  simpl; lia.
Defined.

Lemma setup_logging_repeated_witness :
  20 <= levelno (lr_level (LogRecord INFO "successfully ran echo")) /\
  stdout_lines
    (handle (setup_logging_each ([10; 30] ++ [20]) fresh_root)
       (LogRecord INFO "successfully ran echo"))
  = 3%nat.
Proof.
  split; [simpl; lia|].
  apply (setup_logging_repeated [10; 30] 20 (LogRecord INFO "successfully ran echo")).
  simpl; lia.
Defined.
